(** * depscope: the scoring and aggregation engine

    A shallow embedding of the score library ([calculateScore],
    [calculateGrade], [calculateProjectScore]), of the download-trend
    computation of [getDownloadTrend] (lib/npm-api.js), of the
    orchestrator [analyzePackage] / [analyzeProject] (index.js), of the
    analyzers (maintenance, popularity, size, security), of the response
    cache (lib/cache.js) with [cachedFetch], of the JSON reporter and of the
    exit code of the CLI.

    Modelling conventions.
    - JS numbers are exact rationals ([Q]); counts, sizes and scores that the
      code only compares or adds are integers ([Z]). The one exception is the
      percent of [getDownloadTrend], whose division and rounding are
      computed in IEEE binary64 doubles ([spec_float] of SpecFloat), as JS
      computes them.
    - A property that the code reads with [x || 0] or compares with [===] may
      be absent; it is an [option]: [None] is [undefined] (or any falsy
      non-number such as [null] or [NaN]).
    - Strings compared with [===] are [String.string] compared with [String.eqb].
    - An object sub-record guarded with [if (r.field)] is an [option] record. *)

From Stdlib Require Import ZArith QArith Qround String List Bool Lia Lqa.
From Stdlib Require Import Sorted Permutation SpecFloat.
Import ListNotations.

Open Scope string_scope.
Open Scope Z_scope.

(** ** Data model: the signal records of an analysis result *)

(** [daysSincePublish] is a number or [Infinity]. *)
Inductive JSDays : Type :=
| Days (d : Z)
| Infinity.

Record Maintenance : Type := {
  lastPublish : option string;
  daysSincePublish : option JSDays;
  status : option string
}.

Record Popularity : Type := {
  weeklyDownloads : option Z;
  trend : option string;
  trendPercent : option Q
}.

Record Size : Type := {
  unpackedSize : option Z;
  unpackedSizeHuman : option string
}.

Record Security : Type := {
  vulnerabilities : option Z;
  severity : option string
}.

(** The four fields [calculateScore] reads from its argument. *)
Record AnalysisResult : Type := {
  maintenance : option Maintenance;
  popularity : option Popularity;
  size : option Size;
  security : option Security
}.

(** [{}] *)
Definition emptyResult : AnalysisResult :=
  {| maintenance := None; popularity := None; size := None; security := None |}.

(** [x === 'lit'] on a possibly missing string property. *)
Definition js_str_eq (x : option string) (lit : string) : bool :=
  match x with
  | Some s => String.eqb s lit
  | None => false
  end.

(** [x || 0] on a possibly missing number property ([0] is falsy too). *)
Definition or0 (x : option Z) : Z :=
  match x with
  | Some n => n
  | None => 0
  end.

(** ** [calculateScore] (lib/score.js)

    The body of [calculateScore] is a sequence of five blocks, each of which
    may do [score += k]; each block is a function from the running [score]
    to the next one. *)

(** Maintenance (30 points) *)
Definition maintenance_block (analysisResult : AnalysisResult) (score : Z) : Z :=
  match maintenance analysisResult with
  | Some m =>
      let st := status m in
      if js_str_eq st "active" then score + 30
      else if js_str_eq st "stale" then score + 15
      else score
  | None => score
  end.

(** Popularity (20 points) *)
Definition popularity_block (analysisResult : AnalysisResult) (score : Z) : Z :=
  match popularity analysisResult with
  | Some p =>
      let dl := or0 (weeklyDownloads p) in
      if dl >? 1000000 then score + 20
      else if dl >? 100000 then score + 15
      else if dl >? 10000 then score + 10
      else if dl >? 1000 then score + 5
      else score
  | None => score
  end.

(** Size (15 points) *)
Definition size_block (analysisResult : AnalysisResult) (score : Z) : Z :=
  match size analysisResult with
  | Some s =>
      let bytes := or0 (unpackedSize s) in
      if bytes =? 0 then score + 8
      else if bytes <? 100 * 1024 then score + 15
      else if bytes <? 500 * 1024 then score + 12
      else if bytes <? 1024 * 1024 then score + 8
      else if bytes <? 5 * 1024 * 1024 then score + 4
      else score
  | None => score
  end.

(** Security (25 points) *)
Definition security_block (analysisResult : AnalysisResult) (score : Z) : Z :=
  match security analysisResult with
  | Some s =>
      let sev := severity s in
      if js_str_eq sev "none" then score + 25
      else if js_str_eq sev "low" then score + 15
      else if js_str_eq sev "moderate" then score + 8
      else if js_str_eq sev "high" then score + 2
      else score
  | None => score
  end.

(** Trend (10 points) *)
Definition trend_block (analysisResult : AnalysisResult) (score : Z) : Z :=
  match popularity analysisResult with
  | Some p =>
      let tr := trend p in
      if js_str_eq tr "growing" then score + 10
      else if js_str_eq tr "stable" then score + 7
      else if js_str_eq tr "declining" then score + 2
      else score
  | None => score
  end.

Definition calculateScore (analysisResult : AnalysisResult) : Z :=
  let score := 0 in
  let score := maintenance_block analysisResult score in
  let score := popularity_block analysisResult score in
  let score := size_block analysisResult score in
  let score := security_block analysisResult score in
  let score := trend_block analysisResult score in
  Z.max 0 (Z.min 100 score).

(** ** [calculateGrade] (lib/score.js) *)

Definition calculateGrade (score : Z) : string :=
  if score >=? 80 then "A"
  else if score >=? 60 then "B"
  else if score >=? 40 then "C"
  else if score >=? 20 then "D"
  else "F".

(** ** The scoring table of the specification (section 4.1)

    The table is stated over typed signals: the three maintenance statuses,
    the three trend directions, the five severities and non-negative counts. *)

Inductive MaintStatus : Type := Active | Stale | Abandoned.
Inductive TrendDir : Type := Growing | Stable | Declining.
Inductive Sev : Type := SevNone | SevLow | SevModerate | SevHigh | SevCritical.

(** A signal bundle: each of the four sub-records may be missing. The
    popularity record carries the weekly downloads and the trend. *)
Record SignalBundle : Type := {
  sig_maintenance : option MaintStatus;
  sig_popularity : option (N * TrendDir);
  sig_size : option N;
  sig_security : option Sev
}.

Definition table_maintenance (m : option MaintStatus) : Z :=
  match m with
  | Some Active => 30
  | Some Stale => 15
  | Some Abandoned => 0
  | None => 0
  end.

Definition table_downloads (dl : N) : Z :=
  let d := Z.of_N dl in
  if 1000000 <? d then 20
  else if 100000 <? d then 15
  else if 10000 <? d then 10
  else if 1000 <? d then 5
  else 0.

Definition table_popularity (p : option (N * TrendDir)) : Z :=
  match p with
  | Some (dl, _) => table_downloads dl
  | None => 0
  end.

Definition table_bytes (b : N) : Z :=
  let d := Z.of_N b in
  if d =? 0 then 8
  else if d <? 100 * 1024 then 15
  else if d <? 500 * 1024 then 12
  else if d <? 1024 * 1024 then 8
  else if d <? 5 * 1024 * 1024 then 4
  else 0.

Definition table_size (s : option N) : Z :=
  match s with
  | Some b => table_bytes b
  | None => 0
  end.

Definition table_security (s : option Sev) : Z :=
  match s with
  | Some SevNone => 25
  | Some SevLow => 15
  | Some SevModerate => 8
  | Some SevHigh => 2
  | Some SevCritical => 0
  | None => 0
  end.

Definition table_trend (p : option (N * TrendDir)) : Z :=
  match p with
  | Some (_, Growing) => 10
  | Some (_, Stable) => 7
  | Some (_, Declining) => 2
  | None => 0
  end.

Definition table_score (b : SignalBundle) : Z :=
  table_maintenance (sig_maintenance b) + table_popularity (sig_popularity b)
  + table_size (sig_size b) + table_security (sig_security b)
  + table_trend (sig_popularity b).

(** The strings the analyzers put in the records. *)
Definition status_string (m : MaintStatus) : string :=
  match m with Active => "active" | Stale => "stale" | Abandoned => "abandoned" end.

Definition trend_string (t : TrendDir) : string :=
  match t with Growing => "growing" | Stable => "stable" | Declining => "declining" end.

Definition severity_string (s : Sev) : string :=
  match s with
  | SevNone => "none" | SevLow => "low" | SevModerate => "moderate"
  | SevHigh => "high" | SevCritical => "critical"
  end.

(** A bundle as the JS object handed to [calculateScore]. *)
Definition bundle_to_result (b : SignalBundle) : AnalysisResult := {|
  maintenance := option_map (fun m =>
    {| lastPublish := None; daysSincePublish := None; status := Some (status_string m) |})
    (sig_maintenance b);
  popularity := option_map (fun '(dl, t) =>
    {| weeklyDownloads := Some (Z.of_N dl); trend := Some (trend_string t);
       trendPercent := None |})
    (sig_popularity b);
  size := option_map (fun bytes =>
    {| unpackedSize := Some (Z.of_N bytes); unpackedSizeHuman := None |})
    (sig_size b);
  security := option_map (fun s =>
    {| vulnerabilities := None; severity := Some (severity_string s) |})
    (sig_security b)
|}.

(** ** [calculateProjectScore] (lib/score.js)

    Each result is seen through its [score] property: [Some s] when
    [typeof r.score === 'number'], [None] otherwise. *)

Definition prodWeight : Q := 1%Q.
Definition devWeight : Q := 1 # 2.

(** [typeof r.score === 'number' ? r.score : 0] *)
Definition score_or_0 (r : option Q) : Q :=
  match r with
  | Some s => s
  | None => 0%Q
  end.

(** [for (const r of rs) { weightedSum += s * w; totalWeight += w; }] *)
Fixpoint accumulate (w : Q) (rs : list (option Q)) (weightedSum totalWeight : Q)
  : Q * Q :=
  match rs with
  | [] => (weightedSum, totalWeight)
  | r :: rs' =>
      accumulate w rs' (weightedSum + score_or_0 r * w)%Q (totalWeight + w)%Q
  end.

(** [Math.round]: the nearest integer, halves rounded up. *)
Definition js_round (x : Q) : Z := Qfloor (x + (1 # 2))%Q.

Definition calculateProjectScore (results devResults : list (option Q)) : Z :=
  let '(weightedSum, totalWeight) := accumulate prodWeight results 0%Q 0%Q in
  let '(weightedSum, totalWeight) :=
    accumulate devWeight devResults weightedSum totalWeight in
  if Qeq_bool totalWeight 0%Q then 0
  else js_round (weightedSum / totalWeight)%Q.

(** Integer scores as the [score] properties of results. *)
Definition scored (zs : list Z) : list (option Q) :=
  map (fun z => Some (inject_Z z)) zs.

(** The project score as section 4.3 of the specification states it:
    [round(sum(score_i * weight_i) / sum(weight_i))], 0 for no entries. *)
Definition Qsum (l : list Q) : Q := fold_right Qplus 0%Q l.

Definition spec_projectScore (prod dev : list Z) : Z :=
  match prod, dev with
  | [], [] => 0
  | _, _ =>
      js_round
        ((Qsum (map (fun z => inject_Z z * 1) prod)
          + Qsum (map (fun z => inject_Z z * (1 # 2)) dev))
         / (inject_Z (Z.of_nat (length prod)) * 1
            + inject_Z (Z.of_nat (length dev)) * (1 # 2)))%Q
  end.

(** ** [getDownloadTrend] (lib/npm-api.js)

    The fetched range data is [Some downloads] (the daily counts of
    [data.downloads], in order) or [None] when [data] is null or its
    [downloads] is not an array. *)

Record TrendResult : Type := {
  recent : Z;
  sixMonthsAgo : Z;
  tr_trend : string;
  percent : Q
}.

(** [a > b] on numbers. *)
Definition Qgt_bool (a b : Q) : bool := negb (Qle_bool a b).

(** [days.reduce((sum, d) => sum + d.downloads, 0)] *)
Definition sum_downloads (days : list Z) : Z :=
  fold_left (fun sum d => sum + d) days 0.

(** [downloads.slice(-7)] *)
Definition recent_days (downloads : list Z) : list Z :=
  skipn (length downloads - 7) downloads.

(** [Math.max(0, downloads.length - 182 - 7)] *)
Definition six_month_offset (downloads : list Z) : nat :=
  Z.to_nat (Z.max 0 (Z.of_nat (length downloads) - 182 - 7)).

(** [downloads.slice(sixMonthOffset, sixMonthOffset + 7)] *)
Definition old_days (downloads : list Z) : list Z :=
  firstn 7 (skipn (six_month_offset downloads) downloads).

(** JS numbers as IEEE binary64 doubles: 53 bits of precision, largest
    exponent 1024, every operation rounded to nearest, ties to even. *)
Definition dbl_prec : Z := 53.
Definition dbl_emax : Z := 1024.

(** The double nearest an integer (the integer itself below 2^53: the day
    counts and their sums, which JS adds exactly). *)
Definition dbl_of_Z (n : Z) : spec_float :=
  binary_normalize dbl_prec dbl_emax n 0 false.

(** The exact value of a finite double; the non-finite ones (not reached:
    the divisor is a positive integer) are sent to 0. *)
Definition Q_of_dbl (x : spec_float) : Q :=
  match x with
  | S754_finite s m (Zpos p) => inject_Z (cond_Zopp s (Zpos m) * 2 ^ Zpos p)
  | S754_finite s m Z0 => inject_Z (cond_Zopp s (Zpos m))
  | S754_finite s m (Zneg p) => cond_Zopp s (Zpos m) # Pos.pow 2 p
  | _ => 0%Q
  end.

(** A double that is a zero or NaN. *)
Definition zero_or_nan (x : spec_float) : bool :=
  match x with S754_zero _ | S754_nan => true | _ => false end.

(** [percent = ((recent - sixMonthsAgo) / sixMonthsAgo) * 100;
     percent = Math.round(percent * 10) / 10;]
    each operation a double operation; [Math.round] of a finite double is
    exact ([js_round] of its value). *)
Definition trend_percent (recent sixMonthsAgo : Z) : spec_float :=
  let percent :=
    SFmul dbl_prec dbl_emax
      (SFdiv dbl_prec dbl_emax
         (SFsub dbl_prec dbl_emax (dbl_of_Z recent) (dbl_of_Z sixMonthsAgo))
         (dbl_of_Z sixMonthsAgo))
      (dbl_of_Z 100) in
  SFdiv dbl_prec dbl_emax
    (dbl_of_Z (js_round (Q_of_dbl (SFmul dbl_prec dbl_emax percent (dbl_of_Z 10)))))
    (dbl_of_Z 10).

(** The [percent] field is the exact value of the double; [>] on doubles
    compares these values. *)
Definition getDownloadTrend (data : option (list Z)) : option TrendResult :=
  match data with
  | None => None
  | Some downloads =>
      let recent := sum_downloads (recent_days downloads) in
      let sixMonthsAgo := sum_downloads (old_days downloads) in
      let '(trend, percent) :=
        if sixMonthsAgo >? 0 then
          let percent := Q_of_dbl (trend_percent recent sixMonthsAgo) in
          (if Qgt_bool percent 10 then "growing"
           else if Qgt_bool (-10) percent then "declining"
           else "stable", percent)
        else if recent >? 0 then ("growing", 100%Q)
        else ("stable", 0%Q) in
      Some {| recent := recent; sixMonthsAgo := sixMonthsAgo;
              tr_trend := trend; percent := percent |}
  end.

(** Rounding to one decimal, as section 4.1 of the specification uses it
    ([round1]): the nearest multiple of 1/10, halves rounded up. *)
Definition round1 (x : Q) : Q :=
  (inject_Z (Qfloor (x * 10 + (1 # 2))) / 10)%Q.

(** ** The orchestrator (index.js) *)

Record Alternative : Type := {
  alt_name : string;
  alt_reason : string
}.

(** The object [analyzePackage] returns (the fallback objects of
    [analyzeProject] leave the signal fields out). *)
Record DependencyResult : Type := {
  name : string;
  version : string;
  latestVersion : option string;
  dr_maintenance : option Maintenance;
  dr_popularity : option Popularity;
  dr_size : option Size;
  dr_security : option Security;
  alternative : option Alternative;
  score : Z;
  grade : string;
  error : option string
}.

(** The registry metadata; only [dist-tags.latest] is read by
    [analyzePackage] itself. *)
Record PackageInfo : Type := {
  dist_tags_latest : option string
}.

(** An entry of the array [Promise.allSettled] resolves to. The rejection
    reason is [None] when falsy, else [Some m] with [m] its [message]. *)
Inductive Settled (A : Type) : Type :=
| Fulfilled (value : A)
| Rejected (reason : option (option string)).
Arguments Fulfilled {A} value.
Arguments Rejected {A} reason.

(** The settled results of [analyzeMaintenance], [analyzePopularity],
    [analyzeSize] and [analyzeSecurity] for one package. *)
Record AnalyzerOutcomes : Type := {
  maintenance_out : Settled Maintenance;
  popularity_out : Settled Popularity;
  size_out : Settled Size;
  security_out : Settled Security
}.

Definition maintenance_default : Maintenance :=
  {| lastPublish := Some "unknown"; daysSincePublish := Some Infinity;
     status := Some "abandoned" |}.

Definition popularity_default : Popularity :=
  {| weeklyDownloads := Some 0; trend := Some "stable"; trendPercent := Some 0%Q |}.

Definition size_default : Size :=
  {| unpackedSize := Some 0; unpackedSizeHuman := Some "unknown" |}.

Definition security_default : Security :=
  {| vulnerabilities := Some 0; severity := Some "none" |}.

(** [results[i].status === 'fulfilled' ? results[i].value : default] *)
Definition value_or {A : Type} (r : Settled A) (default : A) : A :=
  match r with
  | Fulfilled v => v
  | Rejected _ => default
  end.

(** Which list of the manifest a dependency comes from. *)
Inductive DepKind : Type := Prod | Dev.

(** The manifest: the entries of [pkg.dependencies] and
    [pkg.devDependencies], in [Object.entries] order, when present. *)
Record Manifest : Type := {
  pkg_dependencies : option (list (string * string));
  pkg_devDependencies : option (list (string * string))
}.

Record ProjectResult : Type := {
  dependencies : list DependencyResult;
  devDependencies : list DependencyResult;
  projectScore : Z;
  projectGrade : string
}.

(** What running [analyzePackage(name, version)] meets: the metadata
    fetch and the analyzers' outcomes, or an exception thrown out of it. *)
Inductive PackageRun : Type :=
| Ran (packageInfo : option PackageInfo) (outcomes : AnalyzerOutcomes)
| Threw (reason : option (option string)).

Fixpoint mapi_from {A B : Type} (f : nat -> A -> B) (i : nat) (l : list A) : list B :=
  match l with
  | [] => []
  | x :: l' => f i x :: mapi_from f (S i) l'
  end.

Section Orchestrator.

(** [getAlternative] (analyzers/alternatives.js), a static lookup. *)
Variable getAlternative : string -> option Alternative.

(** The environment: what the [i]-th call of [analyzePackage] on the
    production (or dev) list meets. The cache clearing of [noCache] only
    changes what the fetches return, so it is part of this environment. *)
Variable run : DepKind -> nat -> string -> string -> PackageRun.

Definition analyzePackage (name version : string)
    (packageInfo : option PackageInfo) (results : AnalyzerOutcomes)
    : DependencyResult :=
  match packageInfo with
  | None =>
      (* Package not found or network error *)
      {| name := name; version := version; latestVersion := Some "unknown";
         dr_maintenance := Some maintenance_default;
         dr_popularity := Some popularity_default;
         dr_size := Some size_default;
         dr_security := Some security_default;
         alternative := getAlternative name;
         score := 0; grade := "F";
         error := Some "Package not found or network error" |}
  | Some pi =>
      let latestVersion :=
        match dist_tags_latest pi with
        | Some v => if String.eqb v "" then "unknown" else v
        | None => "unknown"
        end in
      let maintenance := value_or (maintenance_out results) maintenance_default in
      let popularity := value_or (popularity_out results) popularity_default in
      let size := value_or (size_out results) size_default in
      let security := value_or (security_out results) security_default in
      let alternative := getAlternative name in
      let analysisResult :=
        {| maintenance := Some maintenance; popularity := Some popularity;
           size := Some size; security := Some security |} in
      let score := calculateScore analysisResult in
      {| name := name; version := version; latestVersion := Some latestVersion;
         dr_maintenance := Some maintenance; dr_popularity := Some popularity;
         dr_size := Some size; dr_security := Some security;
         alternative := alternative;
         score := score; grade := calculateGrade score; error := None |}
  end.

(** [analyzePackage(name, version, analyzeOpts)] as the [i]-th promise of
    the list of kind [k], once settled. *)
Definition analyzePackage_settled (k : DepKind) (i : nat) (entry : string * string)
    : Settled DependencyResult :=
  let '(name, version) := entry in
  match run k i name version with
  | Ran packageInfo outcomes => Fulfilled (analyzePackage name version packageInfo outcomes)
  | Threw reason => Rejected reason
  end.

(** [settled.map((r, i) => ...)] with [entries[i]] for a rejected [r]. *)
Definition settled_to_result (entries : list (string * string)) (i : nat)
    (r : Settled DependencyResult) : DependencyResult :=
  match r with
  | Fulfilled v => v
  | Rejected reason =>
      let entry := nth i entries ("", "") in
      {| name := fst entry; version := snd entry; latestVersion := None;
         dr_maintenance := None; dr_popularity := None; dr_size := None;
         dr_security := None; alternative := None;
         error := match reason with
                  | Some message => message
                  | None => Some "Analysis failed"
                  end;
         score := 0; grade := "F" |}
  end.

(** Analyze one list of entries concurrently and collect every outcome. *)
Definition analyze_entries (k : DepKind) (entries : list (string * string))
    : list DependencyResult :=
  let settled := mapi_from (analyzePackage_settled k) 0 entries in
  mapi_from (settled_to_result entries) 0 settled.

(** The score of a result, as [calculateProjectScore] reads it. *)
Definition result_score (r : DependencyResult) : option Q := Some (inject_Z (score r)).

Definition analyzeProject (pkg : Manifest) (includeDev : bool) : ProjectResult :=
  let deps := match pkg_dependencies pkg with Some d => d | None => [] end in
  let devDeps :=
    if includeDev then match pkg_devDependencies pkg with Some d => d | None => [] end
    else [] in
  let dependencies := analyze_entries Prod deps in
  let devDependencies := if includeDev then analyze_entries Dev devDeps else [] in
  let projectScore :=
    calculateProjectScore (map result_score dependencies)
      (map result_score devDependencies) in
  {| dependencies := dependencies; devDependencies := devDependencies;
     projectScore := projectScore; projectGrade := calculateGrade projectScore |}.

End Orchestrator.

(** ** The signal bundles of the specification's test cases (section 8) *)

Definition mixed_bundle : SignalBundle :=
  {| sig_maintenance := Some Stale; sig_popularity := Some (50000%N, Stable);
     sig_size := Some 200000%N; sig_security := Some SevModerate |}.

Definition worst_bundle : SignalBundle :=
  {| sig_maintenance := Some Abandoned; sig_popularity := Some (50%N, Declining);
     sig_size := Some 10000000%N; sig_security := Some SevCritical |}.

(** [{popularity: {weeklyDownloads: n}}] *)
Definition downloads_only (n : Z) : AnalysisResult :=
  {| maintenance := None;
     popularity := Some {| weeklyDownloads := Some n; trend := None; trendPercent := None |};
     size := None; security := None |}.

(** [{size: {unpackedSize: n}}] *)
Definition size_only (n : option Z) : AnalysisResult :=
  {| maintenance := None; popularity := None;
     size := Some {| unpackedSize := n; unpackedSizeHuman := None |};
     security := None |}.

(** [r] with its [size] property removed. *)
Definition without_size (r : AnalysisResult) : AnalysisResult :=
  {| maintenance := maintenance r; popularity := popularity r;
     size := None; security := security r |}.

(** ** Concrete runs of the orchestrator *)

(** A package found on the registry whose maintenance, popularity and size
    analyzers succeed with the best values and whose security analyzer
    throws. *)
Definition found_info : PackageInfo := {| dist_tags_latest := Some "4.21.0" |}.

Definition best_maintenance : Maintenance :=
  {| lastPublish := Some "2026-10-01"; daysSincePublish := Some (Days 14);
     status := Some "active" |}.

Definition best_popularity : Popularity :=
  {| weeklyDownloads := Some 28000000; trend := Some "growing";
     trendPercent := Some 12%Q |}.

Definition small_size : Size :=
  {| unpackedSize := Some 50000; unpackedSizeHuman := Some "49 KB" |}.

Definition security_throws : AnalyzerOutcomes :=
  {| maintenance_out := Fulfilled best_maintenance;
     popularity_out := Fulfilled best_popularity;
     size_out := Fulfilled small_size;
     security_out := Rejected None |}.

Definition no_alternative (_ : string) : option Alternative := None.

(** Every analysis finds nothing on the registry. *)
Definition run_not_found (_ : DepKind) (_ : nat) (_ _ : string) : PackageRun :=
  Ran None security_throws.

(** A manifest with one dependency and one dev dependency. *)
Definition manifest_with_dev : Manifest :=
  {| pkg_dependencies := Some [("express", "^4.21.0")];
     pkg_devDependencies := Some [("mocha", "^10.0.0")] |}.

(** ** The analyzers (analyzers/maintenance.js, size.js, popularity.js,
    security.js) *)

(** The registry metadata the analyzers read: [dist-tags.latest], the
    [time] object (its entries in [Object.entries] order, each a date string)
    and, per version, [dist.unpackedSize] (as [calculateScore] reads sizes:
    [None] when missing or falsy). *)
Record VersionMeta : Type := {
  dist_unpackedSize : option Z
}.

Record RegistryMetadata : Type := {
  rm_latest : option string;
  rm_time : option (list (string * string));
  rm_versions : option (list (string * VersionMeta))
}.

(** [analyzePackage] only reads [dist-tags.latest]. *)
Definition to_package_info (pi : RegistryMetadata) : PackageInfo :=
  {| dist_tags_latest := rm_latest pi |}.

(** [obj[key]] on an object given by its entries. *)
Fixpoint lookup {A : Type} (key : string) (l : list (string * A)) : option A :=
  match l with
  | [] => None
  | (k, v) :: l' => if String.eqb k key then Some v else lookup key l'
  end.

(** A string property used as a condition: present and non-empty. *)
Definition str_truthy (s : option string) : bool :=
  match s with
  | Some v => negb (String.eqb v "")
  | None => false
  end.

(** Milliseconds in a day: [1000 * 60 * 60 * 24]. *)
Definition ms_per_day : Z := 1000 * 60 * 60 * 24.

(** Status from the day count ([sixMonthsDays = 180],
    [eighteenMonthsDays = 540]). *)
Definition status_of_days (daysSincePublish : Z) : string :=
  if daysSincePublish <? 180 then "active"
  else if daysSincePublish <? 540 then "stale"
  else "abandoned".

Section Maintenance.

(** [new Date(s)] on a date string: its time value in ms, [None] for an
    Invalid Date. *)
Variable parseDate : string -> option Z.
(** [date.toISOString().split('T')[0]] on a valid date. *)
Variable isoDay : Z -> string.

(** [d > latest] on two dates: false when either is invalid (NaN). *)
Definition date_gt (d latest : option Z) : bool :=
  match d, latest with
  | Some a, Some b => a >? b
  | _, _ => false
  end.

(** The fallback loop over [Object.entries(packageInfo.time)]: [latest] is
    [None] while null, [Some d] once a date (possibly invalid) is held. *)
Definition latest_step (latest : option (option Z)) (kv : string * string)
    : option (option Z) :=
  let '(key, val) := kv in
  if String.eqb key "created" then latest
  else
    let d := parseDate val in
    match latest with
    | None => Some d
    | Some l => if date_gt d l then Some d else latest
    end.

Definition latest_of_time (time : list (string * string)) : option Z :=
  match fold_left latest_step time None with
  | None => Some 0   (* new Date(0) *)
  | Some d => d
  end.

(** The date [analyzeMaintenance] takes as the last publish. *)
Definition last_publish_date (pi : RegistryMetadata) (time : list (string * string))
    : option Z :=
  let latestTag := rm_latest pi in
  match latestTag with
  | Some tag =>
      if str_truthy latestTag && str_truthy (lookup tag time)
      then match lookup tag time with Some v => parseDate v | None => None end
      else if str_truthy (lookup "modified" time)
      then match lookup "modified" time with Some v => parseDate v | None => None end
      else latest_of_time time
  | None =>
      if str_truthy (lookup "modified" time)
      then match lookup "modified" time with Some v => parseDate v | None => None end
      else latest_of_time time
  end.

(** [analyzeMaintenance(packageInfo)] at the current time [now] (ms). On an
    Invalid Date, [toISOString] throws a RangeError and the promise
    rejects. *)
Definition analyzeMaintenance (now : Z) (packageInfo : option RegistryMetadata)
    : Settled Maintenance :=
  match packageInfo with
  | None => Fulfilled maintenance_default
  | Some pi =>
      match rm_time pi with
      | None => Fulfilled maintenance_default
      | Some time =>
          match last_publish_date pi time with
          | None => Rejected (Some (Some "Invalid time value"))
          | Some t =>
              let daysSincePublish := (now - t) / ms_per_day in
              Fulfilled {| lastPublish := Some (isoDay t);
                           daysSincePublish := Some (Days daysSincePublish);
                           status := Some (status_of_days daysSincePublish) |}
          end
      end
  end.

End Maintenance.

(** Decimal digits of a [Decimal.uint]. *)
Fixpoint string_of_uint (d : Decimal.uint) : string :=
  match d with
  | Decimal.Nil => ""
  | Decimal.D0 d' => "0" ++ string_of_uint d'
  | Decimal.D1 d' => "1" ++ string_of_uint d'
  | Decimal.D2 d' => "2" ++ string_of_uint d'
  | Decimal.D3 d' => "3" ++ string_of_uint d'
  | Decimal.D4 d' => "4" ++ string_of_uint d'
  | Decimal.D5 d' => "5" ++ string_of_uint d'
  | Decimal.D6 d' => "6" ++ string_of_uint d'
  | Decimal.D7 d' => "7" ++ string_of_uint d'
  | Decimal.D8 d' => "8" ++ string_of_uint d'
  | Decimal.D9 d' => "9" ++ string_of_uint d'
  end.

(** [String(n)] for an integer [n] (exact below 2^53). *)
Definition js_int_string (n : Z) : string :=
  match n with
  | Z0 => "0"
  | Zpos p => string_of_uint (Pos.to_uint p)
  | Zneg p => "-" ++ string_of_uint (Pos.to_uint p)
  end.

(** [(b / d).toFixed(1)] for [b >= 0] and [d] a power of two (the quotient
    is exact): the integer [n] nearest to [10 * b / d], the larger one on a
    tie, printed with one decimal. *)
Definition toFixed1 (b d : Z) : string :=
  let n := (2 * 10 * b + d) / (2 * d) in
  js_int_string (n / 10) ++ "." ++ js_int_string (n mod 10).

(** [formatBytes(bytes)] on an integer byte count. [Math.round(bytes / 1024)]
    is [floor(bytes / 1024 + 1/2)]. *)
Definition formatBytes (bytes : Z) : string :=
  if bytes =? 0 then "unknown"
  else if bytes <? 1024 then js_int_string bytes ++ " B"
  else if bytes <? 1024 * 1024 then js_int_string ((bytes + 512) / 1024) ++ " KB"
  else if bytes <? 1024 * 1024 * 1024 then toFixed1 bytes (1024 * 1024) ++ " MB"
  else toFixed1 bytes (1024 * 1024 * 1024) ++ " GB".

(** [analyzeSize(packageInfo)] *)
Definition analyzeSize (packageInfo : option RegistryMetadata) : Size :=
  match packageInfo with
  | None => {| unpackedSize := Some 0; unpackedSizeHuman := Some "unknown" |}
  | Some pi =>
      let latestTag := rm_latest pi in
      let unpackedSize :=
        match latestTag, rm_versions pi with
        | Some tag, Some versions =>
            if str_truthy latestTag then
              match lookup tag versions with
              | Some latestVersion =>
                  match dist_unpackedSize latestVersion with
                  | Some n => if n =? 0 then 0 else n
                  | None => 0
                  end
              | None => 0
              end
            else 0
        | _, _ => 0
        end in
      {| unpackedSize := Some unpackedSize;
         unpackedSizeHuman := Some (formatBytes unpackedSize) |}
  end.

(** [analyzePopularity(name)] given what [getWeeklyDownloads] and
    [getDownloadTrend] returned: [weeklyData] is [None] when null, else
    [Some d] with [d] its [downloads] property. *)
Definition analyzePopularity (weeklyData : option (option Z))
    (trendData : option TrendResult) : Popularity :=
  let weeklyDownloads :=
    match weeklyData with
    | Some d => or0 d
    | None => 0
    end in
  let '(trend, trendPercent) :=
    match trendData with
    | Some td => (tr_trend td, percent td)
    | None => ("stable", 0%Q)
    end in
  {| weeklyDownloads := Some weeklyDownloads; trend := Some trend;
     trendPercent := Some trendPercent |}.

(** [analyzeSecurity(name, version)]: the MVP stub. *)
Definition analyzeSecurity (name version : string) : Security :=
  {| vulnerabilities := Some 0; severity := Some "none" |}.

(** ** The response cache (lib/cache.js) and [cachedFetch] (lib/npm-api.js)

    The disk state is the JSON object of [cache.json] as its entries in key
    order (a missing or unreadable file reads as [{}], like an empty one).
    Stored values are the JSON bodies of registry responses (never [null]),
    which [JSON.stringify] and [JSON.parse] give back unchanged. *)

(** How a call of [writeCache] ends. The [mkdirSync] or the opening of the
    file by [fs.writeFileSync] can throw before the file is touched; once
    opened the file is truncated, and the write of the text can then fail
    partway (a full disk, say), leaving a proper prefix of the text on disk.
    Every error is caught and swallowed. *)
Inductive WriteOutcome : Type :=
| Written
| FailedBeforeWrite
| FailedWhileWriting.

Section Cache.

Variable V : Type.

Record CacheEntry : Type := {
  ce_value : V;
  ce_expiresAt : Z
}.

Definition CacheFile : Type := list (string * CacheEntry).

(** [DEFAULT_TTL = 60 * 60 * 1000] (one hour). *)
Definition DEFAULT_TTL : Z := 60 * 60 * 1000.

(** How the writes of [writeCache] end. *)
Variable write_outcome : WriteOutcome.

(** [writeCache(data)]: the disk is modelled by what [readCache] reads back
    from it. A proper prefix of [JSON.stringify(data, null, 2)] is never
    valid JSON (the opening brace is closed by its last character only), so
    after a write cut off partway [JSON.parse] throws and [readCache]
    returns [{}]. *)
Definition writeCache (data old : CacheFile) : CacheFile :=
  match write_outcome with
  | Written => data
  | FailedBeforeWrite => old
  | FailedWhileWriting => []
  end.

(** [delete cache[key]] *)
Definition remove_key (key : string) (cache : CacheFile) : CacheFile :=
  filter (fun kv => negb (String.eqb (fst kv) key)) cache.

(** [cache[key] = entry]: an existing property keeps its place, a new one
    comes last. *)
Fixpoint set_key (key : string) (entry : CacheEntry) (cache : CacheFile) : CacheFile :=
  match cache with
  | [] => [(key, entry)]
  | (k, e) :: cache' =>
      if String.eqb k key then (k, entry) :: cache'
      else (k, e) :: set_key key entry cache'
  end.

(** [get(key)] at time [now]: the value (or [None] for null) and the new
    disk state. *)
Definition cache_get (now : Z) (key : string) (disk : CacheFile) : option V * CacheFile :=
  let cache := disk in
  match lookup key cache with
  | None => (None, disk)
  | Some entry =>
      if now >? ce_expiresAt entry
      then (None, writeCache (remove_key key cache) disk)
      else (Some (ce_value entry), disk)
  end.

(** [set(key, value, ttlMs)] at time [now]; [ttlMs] is [None] when not a
    number. *)
Definition cache_set (now : Z) (key : string) (value : V) (ttlMs : option Z)
    (disk : CacheFile) : CacheFile :=
  let ttl := match ttlMs with Some t => t | None => DEFAULT_TTL end in
  let cache := disk in
  writeCache (set_key key {| ce_value := value; ce_expiresAt := now + ttl |} cache) disk.

(** [clear()] *)
Definition cache_clear (disk : CacheFile) : CacheFile := writeCache [] disk.

(** What [fetchWithTimeout(url)] gives: a thrown error (network failure or
    timeout) or a response with its status and its parsed JSON body ([None]
    when [res.json()] throws). *)
Inductive Response : Type :=
| NetworkError
| HttpResponse (status : Z) (body : option V).

Definition CACHE_TTL : Z := DEFAULT_TTL.

(** [cachedFetch(url, cacheKey)]: the cache is read at time [t_get] and, after
    a successful fetch, written at time [t_set]. *)
Definition cachedFetch (t_get t_set : Z) (cacheKey : string) (response : Response)
    (disk : CacheFile) : option V * CacheFile :=
  let '(cached, disk) := cache_get t_get cacheKey disk in
  match cached with
  | Some v => (Some v, disk)
  | None =>
      match response with
      | NetworkError => (None, disk)
      | HttpResponse status body =>
          if status =? 404 then (None, disk)
          else if negb ((200 <=? status) && (status <=? 299)) then (None, disk)
          else
            match body with
            | None => (None, disk)
            | Some data => (Some data, cache_set t_set cacheKey data (Some CACHE_TTL) disk)
            end
      end
  end.

End Cache.

Arguments NetworkError {V}.
Arguments HttpResponse {V} status body.

(** ** The JSON reporter (reporters/json.js) *)

Record ReportOptions : Type := {
  ro_dev : bool;
  ro_fix : bool;
  ro_limit : Z;
  ro_quiet : bool
}.

Record JsonDep : Type := {
  jd_name : string;
  jd_type : string;
  jd_version : string;
  jd_latestVersion : option string;
  jd_score : Z;
  jd_grade : string;
  jd_maintenance : option Maintenance;
  jd_popularity : option Popularity;
  jd_size : option Size;
  jd_security : option Security;
  jd_alternative : option Alternative
}.

(** [formatDep(dep, type, options)] *)
Definition formatDep (dep : DependencyResult) (type : string) (options : ReportOptions)
    : JsonDep :=
  {| jd_name := name dep; jd_type := type; jd_version := version dep;
     jd_latestVersion := latestVersion dep; jd_score := score dep;
     jd_grade := grade dep; jd_maintenance := dr_maintenance dep;
     jd_popularity := dr_popularity dep; jd_size := dr_size dep;
     jd_security := dr_security dep;
     jd_alternative :=
       if ro_fix options then
         match alternative dep with
         | Some a => if String.eqb (alt_name a) "" then None else Some a
         | None => None
         end
       else None |}.

(** [Array.prototype.sort] with the comparator [a.score - b.score]: a stable
    sort by ascending score, here by insertion. *)
Fixpoint insert_by_score (x : JsonDep) (sorted : list JsonDep) : list JsonDep :=
  match sorted with
  | [] => [x]
  | y :: ys => if jd_score y <=? jd_score x then y :: insert_by_score x ys else x :: sorted
  end.

Definition sort_by_score (l : list JsonDep) : list JsonDep :=
  fold_left (fun acc x => insert_by_score x acc) l [].

Record GradeCounts : Type := {
  gA : nat; gB : nat; gC : nat; gD : nat; gF : nat
}.

(** [if (dep.grade && grades[dep.grade] !== undefined) grades[dep.grade]++]:
    a grade other than A..F leaves the five counters unchanged. *)
Definition count_grade (g : GradeCounts) (grade : string) : GradeCounts :=
  if String.eqb grade "A" then {| gA := S (gA g); gB := gB g; gC := gC g; gD := gD g; gF := gF g |}
  else if String.eqb grade "B" then {| gA := gA g; gB := S (gB g); gC := gC g; gD := gD g; gF := gF g |}
  else if String.eqb grade "C" then {| gA := gA g; gB := gB g; gC := S (gC g); gD := gD g; gF := gF g |}
  else if String.eqb grade "D" then {| gA := gA g; gB := gB g; gC := gC g; gD := S (gD g); gF := gF g |}
  else if String.eqb grade "F" then {| gA := gA g; gB := gB g; gC := gC g; gD := gD g; gF := S (gF g) |}
  else g.

Record Summary : Type := {
  grades : GradeCounts;
  abandonedCount : nat;
  vulnerableCount : nat;
  productionCount : nat;
  devCount : nat
}.

(** [dep.security && dep.security.vulnerabilities > 0] *)
Definition is_vulnerable (dep : DependencyResult) : bool :=
  match dr_security dep with
  | Some s => match vulnerabilities s with Some n => n >? 0 | None => false end
  | None => false
  end.

(** [dep.maintenance && dep.maintenance.status === 'abandoned'] *)
Definition is_abandoned (dep : DependencyResult) : bool :=
  match dr_maintenance dep with
  | Some m => js_str_eq (status m) "abandoned"
  | None => false
  end.

(** The body of [all.forEach(...)] on the three counters. *)
Definition summary_step (acc : GradeCounts * nat * nat) (dep : DependencyResult)
    : GradeCounts * nat * nat :=
  let '(grades, abandoned, vulnerable) := acc in
  (count_grade grades (grade dep),
   if is_abandoned dep then S abandoned else abandoned,
   if is_vulnerable dep then S vulnerable else vulnerable).

(** [buildSummary(deps, devDeps, options)] *)
Definition buildSummary (deps devDeps : list DependencyResult) (options : ReportOptions)
    : Summary :=
  let all := if ro_dev options then app deps devDeps else deps in
  let '(grades, abandoned, vulnerable) :=
    fold_left summary_step all
      ({| gA := 0; gB := 0; gC := 0; gD := 0; gF := 0 |}, 0%nat, 0%nat) in
  {| grades := grades; abandonedCount := abandoned; vulnerableCount := vulnerable;
     productionCount := length deps;
     devCount := if ro_dev options then length devDeps else 0%nat |}.

(** The output object ([scannedAt], the clock reading, is left out). *)
Record JsonOutput : Type := {
  jo_projectScore : Z;
  jo_projectGrade : string;
  jo_totalDependencies : nat;
  jo_dependencies : list JsonDep;
  jo_summary : option Summary
}.

(** The dependency list of [buildOutput] before the sort and the limit. *)
Definition output_entries (results : ProjectResult) (options : ReportOptions)
    : list JsonDep :=
  let deps := dependencies results in
  let devDeps := devDependencies results in
  let allDeps := map (fun d => formatDep d "production" options) deps in
  if ro_dev options && negb (Nat.eqb (length devDeps) 0)
  then app allDeps (map (fun d => formatDep d "dev" options) devDeps)
  else allDeps.

(** [buildOutput(results, options)] *)
Definition buildOutput (results : ProjectResult) (options : ReportOptions) : JsonOutput :=
  let deps := dependencies results in
  let devDeps := devDependencies results in
  let allDeps := sort_by_score (output_entries results options) in
  let allDeps :=
    if ro_limit options >? 0 then firstn (Z.to_nat (ro_limit options)) allDeps
    else allDeps in
  {| jo_projectScore := projectScore results;
     jo_projectGrade :=
       if String.eqb (projectGrade results) "" then "F" else projectGrade results;
     jo_totalDependencies :=
       (length deps + (if ro_dev options then length devDeps else 0))%nat;
     jo_dependencies := allDeps;
     jo_summary :=
       if ro_quiet options then None else Some (buildSummary deps devDeps options) |}.

(** ** The exit code of the CLI (cli.js, [run]) once [package.json] is read
    and parsed: 1 when no dependency is in scope or when a dependency in
    scope is graded F, 0 otherwise. [analyze includeDev] is the result of
    [analyzeProject(pkg, {includeDev, ...})]. *)
Definition cli_exit_code (pkg : Manifest) (dev : bool)
    (analyze : bool -> ProjectResult) : Z :=
  let deps := match pkg_dependencies pkg with Some d => d | None => [] end in
  let devDeps := match pkg_devDependencies pkg with Some d => d | None => [] end in
  if Nat.eqb (length deps) 0 && (negb dev || Nat.eqb (length devDeps) 0) then 1
  else
    let results := analyze dev in
    let allDeps :=
      app (dependencies results) (if dev then devDependencies results else []) in
    if existsb (fun d => String.eqb (grade d) "F") allDeps then 1 else 0.

(** The analyzer outcomes the code can produce for a package found on the
    registry: the popularity analyzer gives [analyzePopularity] of what the
    two download fetches returned, the security analyzer its stub; either may
    also reject. *)
Definition popularity_from_analyzer (o : Settled Popularity) : Prop :=
  match o with
  | Fulfilled p =>
      exists weeklyData data, p = analyzePopularity weeklyData (getDownloadTrend data)
  | Rejected _ => True
  end.

Definition security_from_analyzer (n v : string) (o : Settled Security) : Prop :=
  match o with
  | Fulfilled s => s = analyzeSecurity n v
  | Rejected _ => True
  end.

Definition analyzers_as_coded (run : DepKind -> nat -> string -> string -> PackageRun)
    : Prop :=
  forall k i n v pi outcomes,
    run k i n v = Ran (Some pi) outcomes ->
    popularity_from_analyzer (popularity_out outcomes) /\
    security_from_analyzer n v (security_out outcomes).

(** The order [Array.prototype.sort] puts the JSON entries in. *)
Definition score_le (a b : JsonDep) : Prop := jd_score a <= jd_score b.

(** The five grade counters of a summary added up. *)
Definition grades_sum (g : GradeCounts) : nat := (gA g + gB g + gC g + gD g + gF g)%nat.

(** A registry answer for a found package, with the analyzers' outcomes as
    the code computes them from concrete fetched data. *)
Definition coded_outcomes (n v : string) : AnalyzerOutcomes :=
  {| maintenance_out := Rejected (Some (Some "Invalid time value"));
     popularity_out :=
       Fulfilled (analyzePopularity (Some (Some 5000)) (getDownloadTrend (Some [100; 120; 90])));
     size_out := Fulfilled (analyzeSize None);
     security_out := Fulfilled (analyzeSecurity n v) |}.

(** Every package is found, except ["left-pad"], which is not, and
    ["broken"], whose analysis throws. *)
Definition run_coded (_ : DepKind) (_ : nat) (n v : string) : PackageRun :=
  if String.eqb n "left-pad" then Ran None (coded_outcomes n v)
  else if String.eqb n "broken" then Threw (Some (Some "boom"))
  else Ran (Some found_info) (coded_outcomes n v).

Definition manifest_lost : Manifest :=
  {| pkg_dependencies := Some [("express", "^4.18.0"); ("left-pad", "^1.3.0")];
     pkg_devDependencies := Some [("broken", "^0.1.0")] |}.

Definition manifest_broken : Manifest :=
  {| pkg_dependencies := Some [("express", "^4.18.0"); ("broken", "^0.1.0")];
     pkg_devDependencies := None |}.

(** A date parser and formatter for sample runs of [analyzeMaintenance]: a
    string of [n] characters is day [n]; ["not a date"] does not parse. *)
Definition sample_parseDate (s : string) : option Z :=
  if String.eqb s "not a date" then None
  else Some (Z.of_nat (String.length s) * ms_per_day).

Definition sample_isoDay (t : Z) : string := js_int_string (t / ms_per_day).

Definition sample_time : list (string * string) :=
  [("created", "x"); ("1.0.0", "xxx"); ("1.1.0", "xxxxx"); ("0.9.0", "xx")].

Definition sample_metadata : RegistryMetadata :=
  {| rm_latest := Some "1.1.0"; rm_time := Some sample_time; rm_versions := None |}.

Definition sample_bad_metadata : RegistryMetadata :=
  {| rm_latest := Some "2.0.0";
     rm_time := Some [("created", "x"); ("1.0.0", "not a date"); ("1.1.0", "xxxxx")];
     rm_versions := None |}.

Definition sample_cache : CacheFile nat :=
  [("pkg:express", {| ce_value := 1%nat; ce_expiresAt := 5000 |})].

(** The dependency at index [i] of the list of kind [k] is not found on the
    registry, or its analysis throws. *)
Definition lost_dependency (run : DepKind -> nat -> string -> string -> PackageRun)
    (k : DepKind) (entries : list (string * string)) : Prop :=
  exists i n v,
    nth_error entries i = Some (n, v) /\
    ((exists outcomes, run k i n v = Ran None outcomes) \/
     (exists reason, run k i n v = Threw reason)).

(** * Proofs *)

(** Case analysis on the integer comparisons of a goal. *)
Ltac zcases :=
  repeat match goal with
  | |- context [?a >=? ?b] => rewrite (Z.geb_leb a b)
  | |- context [?a >? ?b] => rewrite (Z.gtb_ltb a b)
  | |- context [Z.leb ?a ?b] => destruct (Z.leb_spec0 a b)
  | |- context [Z.ltb ?a ?b] => destruct (Z.ltb_spec0 a b)
  | |- context [Z.eqb ?a ?b] => destruct (Z.eqb_spec a b)
  end.

(** Case analysis on the string comparisons of a goal. *)
Ltac strcases :=
  repeat match goal with
  | |- context [js_str_eq ?x ?l] => destruct (js_str_eq x l)
  end.

(** ** Each block of [calculateScore] adds a bounded number of points *)

Section Blocks.

Variable a : AnalysisResult.

Lemma maintenance_block_add (s : Z) :
  maintenance_block a s = s + maintenance_block a 0 /\
  0 <= maintenance_block a 0 <= 30.
Proof.
  unfold maintenance_block; destruct (maintenance a); strcases; lia.
Qed.

Lemma popularity_block_add (s : Z) :
  popularity_block a s = s + popularity_block a 0 /\
  0 <= popularity_block a 0 <= 20.
Proof.
  unfold popularity_block; destruct (popularity a); zcases; lia.
Qed.

Lemma size_block_add (s : Z) :
  size_block a s = s + size_block a 0 /\ 0 <= size_block a 0 <= 15.
Proof.
  unfold size_block; destruct (size a); zcases; lia.
Qed.

Lemma security_block_add (s : Z) :
  security_block a s = s + security_block a 0 /\
  0 <= security_block a 0 <= 25.
Proof.
  unfold security_block; destruct (security a); strcases; lia.
Qed.

Lemma trend_block_add (s : Z) :
  trend_block a s = s + trend_block a 0 /\ 0 <= trend_block a 0 <= 10.
Proof.
  unfold trend_block; destruct (popularity a); strcases; lia.
Qed.

(** The running score before the final clamp is the sum of the blocks. *)
Lemma calculateScore_blocks :
  calculateScore a =
  Z.max 0 (Z.min 100 (maintenance_block a 0 + popularity_block a 0
    + size_block a 0 + security_block a 0 + trend_block a 0)).
Proof.
  unfold calculateScore.
  destruct (maintenance_block_add 0) as [_ Hm].
  destruct (popularity_block_add (maintenance_block a 0)) as [-> Hp].
  destruct (size_block_add (maintenance_block a 0 + popularity_block a 0)) as [-> Hs].
  destruct (security_block_add (maintenance_block a 0 + popularity_block a 0
    + size_block a 0)) as [-> Hc].
  destruct (trend_block_add (maintenance_block a 0 + popularity_block a 0
    + size_block a 0 + security_block a 0)) as [-> Ht].
  reflexivity.
Qed.

(** The clamp is defensive: the sum of the blocks is already in [0, 100]. *)
Lemma blocks_sum_range :
  0 <= maintenance_block a 0 + popularity_block a 0 + size_block a 0
       + security_block a 0 + trend_block a 0 <= 100.
Proof.
  destruct (maintenance_block_add 0) as [_ Hm].
  destruct (popularity_block_add 0) as [_ Hp].
  destruct (size_block_add 0) as [_ Hs].
  destruct (security_block_add 0) as [_ Hc].
  destruct (trend_block_add 0) as [_ Ht].
  lia.
Qed.

Lemma calculateScore_sum :
  calculateScore a =
  maintenance_block a 0 + popularity_block a 0 + size_block a 0
  + security_block a 0 + trend_block a 0.
Proof.
  rewrite calculateScore_blocks. pose proof blocks_sum_range. lia.
Qed.

End Blocks.

(** ** The blocks on a typed bundle are the rows of the table *)

Lemma bundle_blocks (b : SignalBundle) :
  maintenance_block (bundle_to_result b) 0 = table_maintenance (sig_maintenance b) /\
  popularity_block (bundle_to_result b) 0 = table_popularity (sig_popularity b) /\
  size_block (bundle_to_result b) 0 = table_size (sig_size b) /\
  security_block (bundle_to_result b) 0 = table_security (sig_security b) /\
  trend_block (bundle_to_result b) 0 = table_trend (sig_popularity b).
Proof.
  destruct b as [m p sz sec]; unfold bundle_to_result;
  cbn [sig_maintenance sig_popularity sig_size sig_security].
  repeat split.
  - destruct m as [[| |]|]; reflexivity.
  - destruct p as [[dl t]|]; [|reflexivity].
    unfold popularity_block, table_popularity, table_downloads;
    cbn [option_map popularity weeklyDownloads or0]. zcases; lia.
  - destruct sz as [bytes|]; [|reflexivity].
    unfold size_block, table_size, table_bytes;
    cbn [option_map size unpackedSize or0]. zcases; lia.
  - destruct sec as [[| | | |]|]; reflexivity.
  - destruct p as [[dl [| |]]|]; reflexivity.
Qed.

(** ** The grade mapper *)

Lemma calculateGrade_bands (s : Z) :
  (80 <= s -> calculateGrade s = "A") /\
  (60 <= s < 80 -> calculateGrade s = "B") /\
  (40 <= s < 60 -> calculateGrade s = "C") /\
  (20 <= s < 40 -> calculateGrade s = "D") /\
  (s < 20 -> calculateGrade s = "F").
Proof.
  unfold calculateGrade; repeat split; intros; zcases; first [reflexivity | lia].
Qed.

(** ** Claims on the scorer and the grade mapper *)

(** C1: on every signal bundle, [calculateScore] is the sum of the five
    rows of the scoring table (popularity bands with strict [>], size bands
    with strict [<], unknown size 8 points); 1,000,000 weekly downloads fall
    in the 15-point band, 102,400 bytes in the 12-point band, the mixed
    bundle scores 52 and the worst bundle scores 2. *)
Theorem calculateScore_table :
  (forall b : SignalBundle, calculateScore (bundle_to_result b) = table_score b) /\
  calculateScore (downloads_only 1000000) = 15 /\
  calculateScore (size_only (Some 102400)) = 12 /\
  calculateScore (bundle_to_result mixed_bundle) = 52 /\
  calculateScore (bundle_to_result worst_bundle) = 2.
Proof.
  split; [|repeat split; reflexivity].
  intros b. rewrite calculateScore_sum.
  destruct (bundle_blocks b) as [-> [-> [-> [-> ->]]]].
  reflexivity.
Qed.

(** C2: [calculateGrade] maps [80,100] to A, [60,80) to B, [40,60) to C,
    [20,40) to D and [0,20) to F, with the listed boundary values. *)
Theorem calculateGrade_bounds :
  (forall s : Z,
    (80 <= s <= 100 -> calculateGrade s = "A") /\
    (60 <= s < 80 -> calculateGrade s = "B") /\
    (40 <= s < 60 -> calculateGrade s = "C") /\
    (20 <= s < 40 -> calculateGrade s = "D") /\
    (0 <= s < 20 -> calculateGrade s = "F")) /\
  calculateGrade 80 = "A" /\ calculateGrade 79 = "B" /\
  calculateGrade 60 = "B" /\ calculateGrade 59 = "C" /\
  calculateGrade 40 = "C" /\ calculateGrade 39 = "D" /\
  calculateGrade 20 = "D" /\ calculateGrade 19 = "F".
Proof.
  split; [|repeat split; reflexivity].
  intros s.
  destruct (calculateGrade_bands s) as [HA [HB [HC [HD HF]]]].
  repeat split; intros; [apply HA | apply HB | apply HC | apply HD | apply HF]; lia.
Qed.

(** C7: [calculateScore] is total: on every record, with any of the four
    sub-records missing, it returns an integer in [0,100]; the empty record
    scores 0, graded F. *)
Theorem calculateScore_total :
  (forall r : AnalysisResult, 0 <= calculateScore r <= 100) /\
  calculateScore emptyResult = 0 /\
  calculateGrade (calculateScore emptyResult) = "F".
Proof.
  split; [|split; reflexivity].
  intros r. rewrite calculateScore_sum. apply blocks_sum_range.
Qed.

(** C9: a size sub-record whose [unpackedSize] is missing or 0 earns the
    8 points of an unknown size, while a missing size sub-record earns none:
    [calculateScore({size:{}})] is 8 and [calculateScore({})] is 0. *)
Theorem size_unknown_partial_credit :
  (forall (r : AnalysisResult) (s : Size),
     size r = Some s ->
     (unpackedSize s = None \/ unpackedSize s = Some 0) ->
     calculateScore r = calculateScore (without_size r) + 8) /\
  calculateScore (size_only None) = 8 /\
  calculateScore emptyResult = 0.
Proof.
  split; [|split; reflexivity].
  intros r s Hs Hu.
  rewrite (calculateScore_sum r), (calculateScore_sum (without_size r)).
  assert (E : size_block r 0 = 8).
  { unfold size_block; rewrite Hs; destruct Hu as [-> | ->]; reflexivity. }
  assert (maintenance_block (without_size r) 0 = maintenance_block r 0) as ->
    by (destruct r; reflexivity).
  assert (popularity_block (without_size r) 0 = popularity_block r 0) as ->
    by (destruct r; reflexivity).
  assert (size_block (without_size r) 0 = 0) as -> by reflexivity.
  assert (security_block (without_size r) 0 = security_block r 0) as ->
    by (destruct r; reflexivity).
  assert (trend_block (without_size r) 0 = trend_block r 0) as ->
    by (destruct r; reflexivity).
  lia.
Qed.

(** C10: [calculateGrade] is total on all integers: above 100 it still
    answers A, below 0 it answers F, and it only ever answers one of
    A, B, C, D, F. *)
Theorem calculateGrade_total :
  forall s : Z,
    (100 < s -> calculateGrade s = "A") /\
    (s < 0 -> calculateGrade s = "F") /\
    In (calculateGrade s) ["A"; "B"; "C"; "D"; "F"].
Proof.
  intros s.
  destruct (calculateGrade_bands s) as [HA [HB [HC [HD HF]]]].
  split; [intros; apply HA; lia|].
  split; [intros; apply HF; lia|].
  unfold calculateGrade; zcases; simpl; tauto.
Qed.

(** ** The project aggregator *)

Lemma Qsum_cons (x : Q) (l : list Q) : Qsum (x :: l) = (x + Qsum l)%Q.
Proof. reflexivity. Qed.

Lemma inject_Z_succ (n : nat) :
  (inject_Z (Z.of_nat (S n)) == inject_Z (Z.of_nat n) + 1)%Q.
Proof. rewrite Nat2Z.inj_succ. unfold Z.succ. rewrite inject_Z_plus. reflexivity. Qed.

(** The loop of [calculateProjectScore] adds [score_i * w] and [w] once per
    entry. *)
Lemma accumulate_scored (w : Q) (zs : list Z) (ws tw : Q) :
  (fst (accumulate w (scored zs) ws tw)
     == ws + Qsum (map (fun z => inject_Z z * w) zs))%Q /\
  (snd (accumulate w (scored zs) ws tw)
     == tw + inject_Z (Z.of_nat (length zs)) * w)%Q.
Proof.
  revert ws tw. induction zs as [|z zs IH]; intros ws tw.
  - cbn. split; ring.
  - change (scored (z :: zs)) with (Some (inject_Z z) :: scored zs).
    rewrite map_cons, Qsum_cons. cbn [accumulate score_or_0 length].
    destruct (IH (ws + inject_Z z * w)%Q (tw + w)%Q) as [H1 H2].
    rewrite H1, H2, inject_Z_succ. split; ring.
Qed.

(** Scores in [0,100] give a weighted sum between 0 and 100 times the total
    weight. *)
Lemma Qsum_scaled_bounds (w : Q) (zs : list Z) :
  (0 <= w)%Q -> Forall (fun z => 0 <= z <= 100) zs ->
  (0 <= Qsum (map (fun z => inject_Z z * w) zs)
     <= 100 * (inject_Z (Z.of_nat (length zs)) * w))%Q.
Proof.
  intros Hw Hzs. induction Hzs as [|z zs Hz _ IH].
  - cbn. split; [apply Qle_refl | rewrite Qmult_0_l, Qmult_0_r; apply Qle_refl].
  - rewrite map_cons, Qsum_cons. cbn [length].
    rewrite inject_Z_succ.
    assert (0 <= inject_Z z <= 100)%Q as Hq.
    { split; [change 0%Q with (inject_Z 0) | change 100%Q with (inject_Z 100)];
      rewrite <- Zle_Qle; lia. }
    split; nra.
Qed.

(** The total weight is 0 only when both lists are empty. *)
Lemma total_weight_zero (n m : nat) :
  (inject_Z (Z.of_nat n) * 1 + inject_Z (Z.of_nat m) * (1 # 2) == 0)%Q ->
  n = 0%nat /\ m = 0%nat.
Proof.
  unfold Qeq; simpl. lia.
Qed.

Lemma js_round_bounds (x : Q) : (0 <= x <= 100)%Q -> 0 <= js_round x <= 100.
Proof.
  intros [H0 H1]. unfold js_round. split.
  - change 0 with (Qfloor 0%Q + 0). rewrite Z.add_0_r.
    apply Qfloor_resp_le. lra.
  - change 100 with (Qfloor (100 + (1 # 2))%Q).
    apply Qfloor_resp_le. lra.
Qed.

(** C3: for production and dev scores that are integers in [0,100],
    [calculateProjectScore] is [round(sum(score_i * weight_i) / sum(weight_i))]
    with weight 1 for production and 0.5 for dev entries, 0 when both lists
    are empty, and always an integer in [0,100];
    [calculateProjectScore([{score:80},{score:60}], [{score:40}])] is 64. *)
Theorem calculateProjectScore_weighted_mean :
  (forall prod dev : list Z,
     Forall (fun z => 0 <= z <= 100) prod ->
     Forall (fun z => 0 <= z <= 100) dev ->
     calculateProjectScore (scored prod) (scored dev) = spec_projectScore prod dev /\
     0 <= calculateProjectScore (scored prod) (scored dev) <= 100) /\
  calculateProjectScore (scored [80; 60]) (scored [40]) = 64 /\
  calculateProjectScore [] [] = 0.
Proof.
  split; [|split; reflexivity].
  intros prod dev Hp Hd.
  unfold calculateProjectScore.
  destruct (accumulate_scored prodWeight prod 0%Q 0%Q) as [Hw1 Ht1].
  destruct (accumulate prodWeight (scored prod) 0%Q 0%Q) as [ws1 tw1].
  cbn [fst snd] in Hw1, Ht1.
  destruct (accumulate_scored devWeight dev ws1 tw1) as [Hw2 Ht2].
  destruct (accumulate devWeight (scored dev) ws1 tw1) as [ws tw].
  cbn [fst snd] in Hw2, Ht2.
  rewrite Hw1, Qplus_0_l in Hw2. rewrite Ht1, Qplus_0_l in Ht2.
  unfold prodWeight, devWeight in *.
  destruct (Qsum_scaled_bounds 1%Q prod ltac:(lra) Hp) as [P0 P1].
  destruct (Qsum_scaled_bounds (1 # 2)%Q dev ltac:(lra) Hd) as [D0 D1].
  destruct (Qeq_bool tw 0%Q) eqn:Ez.
  - apply Qeq_bool_iff in Ez. rewrite Ez in Ht2. symmetry in Ht2.
    apply total_weight_zero in Ht2 as [Hn Hm].
    destruct prod; [|discriminate]. destruct dev; [|discriminate].
    split; [reflexivity | lia].
  - assert (Hne : ~ (tw == 0)%Q) by (intros E; apply Qeq_bool_iff in E; congruence).
    assert (Hpos : (0 < tw)%Q).
    { rewrite Ht2. rewrite Ht2 in Hne.
      assert (0 <= inject_Z (Z.of_nat (length prod)))%Q.
      { change 0%Q with (inject_Z 0). rewrite <- Zle_Qle. lia. }
      assert (0 <= inject_Z (Z.of_nat (length dev)))%Q.
      { change 0%Q with (inject_Z 0). rewrite <- Zle_Qle. lia. }
      lra. }
    assert (Hsp : js_round (ws / tw) = spec_projectScore prod dev).
    { assert (Hnot : prod <> [] \/ dev <> []).
      { destruct prod, dev; [|right; discriminate|left; discriminate|left; discriminate].
        exfalso. apply Hne. rewrite Ht2. reflexivity. }
      unfold spec_projectScore, js_round.
      destruct prod, dev; [destruct Hnot as [H|H]; congruence| | |];
        rewrite Hw2, Ht2; reflexivity. }
    split; [exact Hsp|].
    apply js_round_bounds. split.
    + apply Qle_shift_div_l; [exact Hpos|]. rewrite Qmult_0_l, Hw2. lra.
    + apply Qle_shift_div_r; [exact Hpos|]. rewrite Hw2, Ht2. lra.
Qed.

(** ** The download trend *)

Lemma Qgt_bool_iff (a b : Q) : Qgt_bool a b = true <-> (b < a)%Q.
Proof.
  unfold Qgt_bool. rewrite negb_true_iff. split.
  - intros H. apply Qnot_le_lt. intros H'. apply Qle_bool_iff in H'. congruence.
  - intros H. destruct (Qle_bool a b) eqn:E; [|reflexivity].
    apply Qle_bool_iff in E. exfalso. apply (Qlt_not_le b a); assumption.
Qed.

(** [x - x] is a zero (or NaN when [x] is infinite or NaN), and it stays one
    through divisions and multiplications. *)
Lemma SFsub_diag x : zero_or_nan (SFsub dbl_prec dbl_emax x x) = true.
Proof.
  destruct x as [b|b| |b m e].
  - destruct b; reflexivity.
  - destruct b; reflexivity.
  - reflexivity.
  - unfold SFsub. rewrite Z.min_id. unfold shl_align. rewrite !Z.sub_diag.
    reflexivity.
Qed.

Lemma SFdiv_zero_or_nan x y :
  zero_or_nan x = true -> zero_or_nan (SFdiv dbl_prec dbl_emax x y) = true.
Proof.
  destruct x as [b|b| |b m e]; try discriminate; intros _;
    destruct y as [b'|b'| |b' m' e']; reflexivity.
Qed.

Lemma SFmul_zero_or_nan x y :
  zero_or_nan x = true -> zero_or_nan (SFmul dbl_prec dbl_emax x y) = true.
Proof.
  destruct x as [b|b| |b m e]; try discriminate; intros _;
    destruct y as [b'|b'| |b' m' e']; reflexivity.
Qed.

Lemma Q_of_dbl_zero_or_nan x : zero_or_nan x = true -> Q_of_dbl x = 0%Q.
Proof. destruct x as [b|b| |b m e]; try discriminate; reflexivity. Qed.

(** With equal totals the percent is 0. *)
Lemma trend_percent_same s : Q_of_dbl (trend_percent s s) = 0%Q.
Proof.
  unfold trend_percent.
  rewrite (Q_of_dbl_zero_or_nan (SFmul _ _ _ _)).
  - reflexivity.
  - apply SFmul_zero_or_nan, SFmul_zero_or_nan, SFdiv_zero_or_nan, SFsub_diag.
Qed.

(** C8 (as the code does it): with [R] the total of the last 7 days and [P]
    the total of the 7-day window about 182 days earlier: if [P > 0] the
    percent is [Math.round(((R - P) / P) * 100 * 10) / 10] computed in
    doubles, and the trend is growing above 10, declining below -10, stable
    otherwise; if [P = 0] and [R > 0] the trend is growing at 100 percent;
    if both are 0 it is stable at 0. *)
Theorem getDownloadTrend_cases :
  forall downloads : list Z,
    let R := sum_downloads (recent_days downloads) in
    let P := sum_downloads (old_days downloads) in
    exists r : TrendResult,
      getDownloadTrend (Some downloads) = Some r /\
      recent r = R /\ sixMonthsAgo r = P /\
      (0 < P ->
         percent r = Q_of_dbl (trend_percent R P) /\
         ((10 < percent r)%Q -> tr_trend r = "growing") /\
         ((percent r < -10)%Q -> tr_trend r = "declining") /\
         ((-10 <= percent r <= 10)%Q -> tr_trend r = "stable")) /\
      (P = 0 -> 0 < R -> tr_trend r = "growing" /\ percent r = 100%Q) /\
      (P = 0 -> R = 0 -> tr_trend r = "stable" /\ percent r = 0%Q).
Proof.
  intros downloads R P.
  unfold getDownloadTrend. fold R P.
  destruct (Z.gtb_spec P 0) as [HP|HP].
  - set (pc := Q_of_dbl (trend_percent R P)).
    eexists; split; [reflexivity|]; cbn [recent sixMonthsAgo tr_trend percent].
    split; [reflexivity|]. split; [reflexivity|].
    split; [|split; intros; lia].
    intros _. split; [reflexivity|].
    split; [|split].
    + intros H. apply Qgt_bool_iff in H. rewrite H. reflexivity.
    + intros H. destruct (Qgt_bool pc 10) eqn:E.
      * apply Qgt_bool_iff in E. exfalso. apply (Qlt_irrefl pc).
        apply Qlt_trans with (-10)%Q; [exact H|]. apply Qlt_trans with 10%Q; [reflexivity|exact E].
      * apply Qgt_bool_iff in H. rewrite H. reflexivity.
    + intros [H1 H2].
      destruct (Qgt_bool pc 10) eqn:E.
      * apply Qgt_bool_iff in E. exfalso. apply (Qlt_not_le 10 pc); assumption.
      * destruct (Qgt_bool (-10) pc) eqn:E'; [|reflexivity].
        apply Qgt_bool_iff in E'. exfalso. apply (Qlt_not_le pc (-10)); assumption.
  - destruct (Z.gtb_spec R 0) as [HR|HR].
    + eexists; split; [reflexivity|]; cbn [recent sixMonthsAgo tr_trend percent].
      split; [reflexivity|]. split; [reflexivity|].
      split; [intros; lia|]. split; [intros; split; reflexivity|intros; lia].
    + eexists; split; [reflexivity|]; cbn [recent sixMonthsAgo tr_trend percent].
      split; [reflexivity|]. split; [reflexivity|].
      split; [intros; lia|]. split; [intros; lia|intros; split; reflexivity].
Qed.

(** C8 as stated fails: with 2000 downloads in the old week and 2011 in the
    recent one, [(R - P) / P * 100] is 0.55, which rounds to 0.6, but the
    double nearest 0.55 is below it and times 10 stays below 5.5, so the
    code reports 0.5; with 3 recent downloads the exact -99.85 rounds to
    -99.8, and the code reports -99.9. *)
Lemma getDownloadTrend_round1_counterexample :
  let old_week := [2000; 0; 0; 0; 0; 0; 0] in
  (forall r, getDownloadTrend (Some (old_week ++ [2011; 0; 0; 0; 0; 0; 0])%list) = Some r ->
     recent r = 2011 /\ sixMonthsAgo r = 2000 /\ (percent r == 1 # 2)%Q /\
     ~ (percent r == round1 (inject_Z (2011 - 2000) / inject_Z 2000 * 100))%Q) /\
  (forall r, getDownloadTrend (Some (old_week ++ [3; 0; 0; 0; 0; 0; 0])%list) = Some r ->
     recent r = 3 /\ sixMonthsAgo r = 2000 /\ (percent r < -999 # 10)%Q /\
     ~ (percent r == round1 (inject_Z (3 - 2000) / inject_Z 2000 * 100))%Q).
Proof.
  cbv zeta. split; intros r E; vm_compute in E; injection E as <-;
    cbn [recent sixMonthsAgo percent];
    (split; [reflexivity|split; [reflexivity|split]]);
    [vm_compute; reflexivity | vm_compute; intros H; discriminate H
    |vm_compute; reflexivity | vm_compute; intros H; discriminate H].
Qed.

(** ** The orchestrator *)

Lemma mapi_from_nth_error {A B : Type} (f : nat -> A -> B) (l : list A) :
  forall j i, nth_error (mapi_from f j l) i = option_map (f (j + i)%nat) (nth_error l i).
Proof.
  induction l as [|x l IH]; intros j i; [destruct i; reflexivity|].
  destruct i as [|i]; cbn [mapi_from nth_error option_map].
  - rewrite Nat.add_0_r. reflexivity.
  - rewrite IH. f_equal. f_equal. lia.
Qed.

Lemma analyze_entries_nth_error run getAlternative k entries i :
  nth_error (analyze_entries getAlternative run k entries) i =
  option_map (fun e => settled_to_result entries i
                         (analyzePackage_settled getAlternative run k i e))
    (nth_error entries i).
Proof.
  unfold analyze_entries. rewrite !mapi_from_nth_error.
  destruct (nth_error entries i); reflexivity.
Qed.

Lemma analyzePackage_name_version getAlternative n v info outcomes :
  name (analyzePackage getAlternative n v info outcomes) = n /\
  version (analyzePackage getAlternative n v info outcomes) = v.
Proof. destruct info; split; reflexivity. Qed.

(** Every entry yields one result carrying its name and version. *)
Lemma analyze_entries_names run getAlternative k entries :
  map (fun r => (name r, version r)) (analyze_entries getAlternative run k entries)
  = entries.
Proof.
  apply nth_error_ext. intros i.
  rewrite nth_error_map, analyze_entries_nth_error.
  destruct (nth_error entries i) as [[n v]|] eqn:E; [|reflexivity].
  cbn [option_map]. unfold analyzePackage_settled.
  destruct (run k i n v) as [info outcomes|reason].
  - cbn [settled_to_result].
    destruct (analyzePackage_name_version getAlternative n v info outcomes) as [-> ->].
    reflexivity.
  - cbn [settled_to_result]. rewrite (nth_error_nth entries i ("", "") E). reflexivity.
Qed.

(** C4: when the metadata fetch fails ([getPackageInfo] gives null),
    [analyzePackage] returns a result with score 0, grade F, an error
    marker, abandoned maintenance with infinite days, zero downloads with a
    stable trend, unknown size (0 bytes) and clean security; in a project
    the dependency keeps its place with that result. *)
Theorem analyzePackage_not_found :
  (forall getAlternative n v outcomes,
     let r := analyzePackage getAlternative n v None outcomes in
     name r = n /\ version r = v /\
     score r = 0 /\ grade r = "F" /\ error r <> None /\
     dr_maintenance r = Some {| lastPublish := Some "unknown";
                                daysSincePublish := Some Infinity;
                                status := Some "abandoned" |} /\
     dr_popularity r = Some {| weeklyDownloads := Some 0; trend := Some "stable";
                               trendPercent := Some 0%Q |} /\
     dr_size r = Some {| unpackedSize := Some 0; unpackedSizeHuman := Some "unknown" |} /\
     dr_security r = Some {| vulnerabilities := Some 0; severity := Some "none" |}) /\
  (forall getAlternative run k entries i n v outcomes,
     nth_error entries i = Some (n, v) ->
     run k i n v = Ran None outcomes ->
     nth_error (analyze_entries getAlternative run k entries) i
     = Some (analyzePackage getAlternative n v None outcomes)).
Proof.
  split.
  - intros getAlternative n v outcomes r.
    repeat split; try reflexivity. cbn. discriminate.
  - intros getAlternative run k entries i n v outcomes Hi Hrun.
    rewrite analyze_entries_nth_error, Hi. cbn [option_map].
    unfold analyzePackage_settled. rewrite Hrun. reflexivity.
Qed.

(** C5 (as the code does it): when the metadata is found and the security
    analyzer fails while the other three succeed, the security record falls
    back to the clean default [{vulnerabilities: 0, severity: 'none'}]: the
    score is the score with the security record absent plus the full 25
    security points, the grade is the grade of that score, and the
    dependency keeps its name and version. *)
Theorem analyzePackage_security_failure :
  forall getAlternative n v info m p s reason,
    let r := analyzePackage getAlternative n v (Some info)
               {| maintenance_out := Fulfilled m; popularity_out := Fulfilled p;
                  size_out := Fulfilled s; security_out := Rejected reason |} in
    score r = calculateScore {| maintenance := Some m; popularity := Some p;
                                size := Some s; security := None |} + 25 /\
    grade r = calculateGrade (score r) /\
    dr_security r = Some security_default /\
    name r = n /\ version r = v.
Proof.
  intros getAlternative n v info m p s reason r.
  repeat split; try reflexivity.
  unfold r, analyzePackage; cbn [score value_or maintenance_out popularity_out
    size_out security_out].
  rewrite !calculateScore_sum. unfold security_block at 1 2. cbn. lia.
Qed.

(** C5 as stated fails: for a package whose security analyzer throws, the
    score is not the score with the security record absent (100, not 75). *)
Lemma analyzePackage_security_failure_counterexample :
  score (analyzePackage no_alternative "express" "^4.21.0" (Some found_info)
           security_throws)
  <> calculateScore {| maintenance := Some best_maintenance;
                       popularity := Some best_popularity;
                       size := Some small_size; security := None |}.
Proof. vm_compute. discriminate. Qed.

(** C6 (as the code does it): [dependencies] has one result per entry of the
    manifest's [dependencies] object, in [Object.entries] order, with its
    name and version, whatever each analysis meets; [devDependencies] has
    one per entry of [devDependencies] in the same way when [includeDev] is
    set, and is empty otherwise. *)
Theorem analyzeProject_one_result_per_entry :
  forall getAlternative run (pkg : Manifest) (includeDev : bool),
    let res := analyzeProject getAlternative run pkg includeDev in
    map (fun r => (name r, version r)) (dependencies res)
      = match pkg_dependencies pkg with Some d => d | None => [] end /\
    map (fun r => (name r, version r)) (devDependencies res)
      = (if includeDev
         then match pkg_devDependencies pkg with Some d => d | None => [] end
         else []).
Proof.
  intros getAlternative run pkg includeDev res.
  unfold res, analyzeProject; cbn [dependencies devDependencies].
  split; [apply analyze_entries_names|].
  destruct includeDev; [apply analyze_entries_names | reflexivity].
Qed.

(** C6 as stated fails: without [includeDev] the declared dev dependency
    [mocha] gets no result. *)
Lemma analyzeProject_dev_dropped_counterexample :
  map (fun r => (name r, version r))
    (devDependencies (analyzeProject no_alternative run_not_found manifest_with_dev false))
  <> [("mocha", "^10.0.0")].
Proof. vm_compute. discriminate. Qed.

(** * Further properties of the code *)

(** ** The maintenance analyzer *)

(** The fallback loop over the [time] object, when every date it meets
    parses: [latest] stays null while only ["created"] was seen, and then
    holds the latest date seen so far. *)
Lemma latest_fold_some parseDate (l : list (string * string)) (m : Z) :
  (forall k v, In (k, v) l -> k <> "created" -> parseDate v <> None) ->
  exists t, fold_left (latest_step parseDate) l (Some (Some m)) = Some (Some t) /\
    m <= t /\
    (forall k v d, In (k, v) l -> k <> "created" -> parseDate v = Some d -> d <= t) /\
    (t = m \/ exists k v, In (k, v) l /\ k <> "created" /\ parseDate v = Some t).
Proof.
  revert m; induction l as [|[k v] l IH]; intros m Hv.
  - exists m; cbn. repeat split; [lia|tauto|left; reflexivity].
  - cbn [fold_left latest_step].
    assert (Hv' : forall k' v', In (k', v') l -> k' <> "created" -> parseDate v' <> None)
      by (intros; apply Hv with k'; [right|]; assumption).
    destruct (String.eqb_spec k "created") as [Hk|Hk].
    + destruct (IH m Hv') as (t & Ht & Hmt & Hmax & Hwho).
      exists t; repeat split; try assumption.
      * intros k' v' d [E|Hin] Hc Hd; [inversion E; subst; contradiction|].
        eapply Hmax; eassumption.
      * destruct Hwho as [->|(k' & v' & Hin & Hc & Hd)]; [left; reflexivity|].
        right; exists k', v'; repeat split; [right|..]; assumption.
    + destruct (parseDate v) as [d|] eqn:Ed;
        [|exfalso; apply (Hv k v); [left; reflexivity|assumption|assumption]].
      unfold date_gt. zcases.
      * destruct (IH d Hv') as (t & Ht & Hmt & Hmax & Hwho).
        exists t; rewrite Ht; repeat split; [lia| |].
        -- intros k' v' d' [E|Hin] Hc Hd'; [inversion E; subst; congruence|].
           eapply Hmax; eassumption.
        -- destruct Hwho as [->|(k' & v' & Hin & Hc & Hd')].
           ++ right; exists k, v; repeat split; [left; reflexivity|assumption|assumption].
           ++ right; exists k', v'; repeat split; [right|..]; assumption.
      * destruct (IH m Hv') as (t & Ht & Hmt & Hmax & Hwho).
        exists t; rewrite Ht; repeat split; [assumption| |].
        -- intros k' v' d' [E|Hin] Hc Hd'; [inversion E; subst; rewrite Ed in Hd'; inversion Hd'; lia|].
           eapply Hmax; eassumption.
        -- destruct Hwho as [->|(k' & v' & Hin & Hc & Hd')]; [left; reflexivity|].
           right; exists k', v'; repeat split; [right|..]; assumption.
Qed.

Lemma latest_fold_none parseDate (l : list (string * string)) :
  (forall k v, In (k, v) l -> k <> "created" -> parseDate v <> None) ->
  (fold_left (latest_step parseDate) l None = None /\
   forall k v, In (k, v) l -> k = "created") \/
  exists t, fold_left (latest_step parseDate) l None = Some (Some t) /\
    (forall k v d, In (k, v) l -> k <> "created" -> parseDate v = Some d -> d <= t) /\
    exists k v, In (k, v) l /\ k <> "created" /\ parseDate v = Some t.
Proof.
  induction l as [|[k v] l IH]; intros Hv.
  - left; split; [reflexivity|intros k v []].
  - assert (Hv' : forall k' v', In (k', v') l -> k' <> "created" -> parseDate v' <> None)
      by (intros; apply Hv with k'; [right|]; assumption).
    cbn [fold_left latest_step].
    destruct (String.eqb_spec k "created") as [Hk|Hk].
    + destruct (IH Hv') as [[H1 H2]|(t & Ht & Hmax & k' & v' & Hin & Hc & Hd)].
      * left; split; [assumption|].
        intros k' v' [E|Hin]; [inversion E; subst; reflexivity|eapply H2; eassumption].
      * right; exists t; split; [assumption|split].
        -- intros k'' v'' d [E|Hin'] Hc' Hd'; [inversion E; subst; contradiction|].
           eapply Hmax; eassumption.
        -- exists k', v'; repeat split; [right|..]; assumption.
    + destruct (parseDate v) as [d|] eqn:Ed;
        [|exfalso; apply (Hv k v); [left; reflexivity|assumption|assumption]].
      right.
      destruct (latest_fold_some parseDate l d Hv') as (t & Ht & Hdt & Hmax & Hwho).
      exists t; split; [assumption|split].
      * intros k' v' d' [E|Hin] Hc Hd'; [inversion E; subst; congruence|].
        eapply Hmax; eassumption.
      * destruct Hwho as [->|(k' & v' & Hin & Hc & Hd')].
        -- exists k, v; repeat split; [left; reflexivity|assumption|assumption].
        -- exists k', v'; repeat split; [right|..]; assumption.
Qed.

(** Once the loop holds an invalid date, no later date replaces it. *)
Lemma latest_fold_invalid parseDate (l : list (string * string)) :
  fold_left (latest_step parseDate) l (Some None) = Some None.
Proof.
  induction l as [|[k v] l IH]; [reflexivity|].
  cbn [fold_left latest_step].
  destruct (String.eqb k "created"); [exact IH|].
  unfold date_gt; destruct (parseDate v); exact IH.
Qed.

Lemma latest_fold_created parseDate (l : list (string * string)) acc :
  (forall k v, In (k, v) l -> k = "created") ->
  fold_left (latest_step parseDate) l acc = acc.
Proof.
  revert acc; induction l as [|[k v] l IH]; intros acc H; [reflexivity|].
  cbn [fold_left latest_step].
  rewrite (H k v (or_introl eq_refl)), String.eqb_refl.
  apply IH; intros; eapply H; right; eassumption.
Qed.

(** X1: [analyzeMaintenance] either fulfills with a status that matches its
    day count (infinite days and abandoned for the default; under 180 days
    active, under 540 stale, abandoned beyond), or rejects with the message
    of [toISOString] on an Invalid Date, which only happens when the date it
    picked does not parse. *)
Theorem analyzeMaintenance_status_matches_days parseDate isoDay now packageInfo :
  match analyzeMaintenance parseDate isoDay now packageInfo with
  | Fulfilled m =>
      (m = maintenance_default /\ daysSincePublish m = Some Infinity /\
       status m = Some "abandoned") \/
      exists d, daysSincePublish m = Some (Days d) /\
        ((d < 180 /\ status m = Some "active") \/
         (180 <= d < 540 /\ status m = Some "stale") \/
         (540 <= d /\ status m = Some "abandoned"))
  | Rejected reason =>
      reason = Some (Some "Invalid time value") /\
      exists pi time, packageInfo = Some pi /\ rm_time pi = Some time /\
        last_publish_date parseDate pi time = None
  end.
Proof.
  unfold analyzeMaintenance.
  destruct packageInfo as [pi|]; [|left; repeat split].
  destruct (rm_time pi) as [time|] eqn:Et; [|left; repeat split].
  destruct (last_publish_date parseDate pi time) as [t|] eqn:El.
  - right. exists ((now - t) / ms_per_day); split; [reflexivity|].
    cbn [status]; unfold status_of_days; zcases.
    + left; split; [lia|reflexivity].
    + right; left; split; [lia|reflexivity].
    + right; right; split; [lia|reflexivity].
  - split; [reflexivity|]. exists pi, time; repeat split; assumption.
Qed.

(** X2: for the same registry metadata, [analyzeMaintenance] run later
    never earns more maintenance points: the day count only grows with the
    clock, and a rejection (which does not depend on the clock) falls back
    to the abandoned default. *)
Theorem analyzeMaintenance_points_decrease parseDate isoDay now1 now2 packageInfo :
  now1 <= now2 ->
  maintenance_block
    {| maintenance := Some (value_or (analyzeMaintenance parseDate isoDay now2 packageInfo)
                                     maintenance_default);
       popularity := None; size := None; security := None |} 0
  <= maintenance_block
    {| maintenance := Some (value_or (analyzeMaintenance parseDate isoDay now1 packageInfo)
                                     maintenance_default);
       popularity := None; size := None; security := None |} 0.
Proof.
  intros Hle. unfold analyzeMaintenance.
  destruct packageInfo as [pi|]; [|reflexivity].
  destruct (rm_time pi) as [time|]; [|reflexivity].
  destruct (last_publish_date parseDate pi time) as [t|]; [|reflexivity].
  cbn [value_or]. unfold maintenance_block; cbn [maintenance status js_str_eq].
  assert ((now1 - t) / ms_per_day <= (now2 - t) / ms_per_day)
    by (apply Z.div_le_mono; [unfold ms_per_day; lia|lia]).
  unfold status_of_days. zcases; cbn; lia.
Qed.

(** X3: when every date of the [time] object (other than ["created"])
    parses, the fallback loop of [analyzeMaintenance] picks the latest of
    them, ignoring ["created"]; with no such date it picks the epoch
    ([new Date(0)]). *)
Theorem latest_of_time_is_latest parseDate (time : list (string * string)) :
  (forall k v, In (k, v) time -> k <> "created" -> parseDate v <> None) ->
  exists t, latest_of_time parseDate time = Some t /\
    (forall k v d, In (k, v) time -> k <> "created" -> parseDate v = Some d -> d <= t) /\
    (((forall k v, In (k, v) time -> k = "created") /\ t = 0) \/
     exists k v, In (k, v) time /\ k <> "created" /\ parseDate v = Some t).
Proof.
  intros Hv. unfold latest_of_time.
  destruct (latest_fold_none parseDate time Hv)
    as [[-> Hc]|(t & -> & Hmax & Hwho)].
  - exists 0; split; [reflexivity|split].
    + intros k v d Hin Hk; exfalso; exact (Hk (Hc k v Hin)).
    + left; split; [assumption|reflexivity].
  - exists t; split; [reflexivity|split]; [assumption|right; assumption].
Qed.

(** X4: if the first entry of [time] other than ["created"] is not a valid
    date, the fallback loop keeps that Invalid Date whatever follows ([d >
    latest] is false against NaN), so with no usable [dist-tags.latest]
    entry and no [modified] the analyzer rejects. *)
Theorem analyzeMaintenance_first_invalid_date parseDate isoDay now pi pre k v post :
  rm_time pi = Some (app pre ((k, v) :: post)) ->
  (forall k' v', In (k', v') pre -> k' = "created") ->
  k <> "created" -> parseDate v = None ->
  (forall tag, rm_latest pi = Some tag ->
     str_truthy (lookup tag (app pre ((k, v) :: post))) = false) ->
  str_truthy (lookup "modified" (app pre ((k, v) :: post))) = false ->
  analyzeMaintenance parseDate isoDay now (Some pi) =
  Rejected (Some (Some "Invalid time value")).
Proof.
  intros Ht Hpre Hk Hv Htag Hmod.
  unfold analyzeMaintenance; rewrite Ht.
  assert (Hl : latest_of_time parseDate (app pre ((k, v) :: post)) = None).
  { unfold latest_of_time.
    rewrite fold_left_app, (latest_fold_created parseDate pre None Hpre).
    cbn [fold_left latest_step].
    apply String.eqb_neq in Hk; rewrite Hk, Hv.
    rewrite latest_fold_invalid; reflexivity. }
  unfold last_publish_date.
  destruct (rm_latest pi) as [tag|] eqn:Etag.
  - rewrite (Htag tag eq_refl), andb_false_r, Hmod, Hl. reflexivity.
  - rewrite Hmod, Hl. reflexivity.
Qed.

(** ** The download trend and the popularity analyzer *)

(** X5: with at most seven days of download data the recent week and the
    week six months back are the same days, so the trend is stable with a
    change of 0%, whatever the counts. *)
Theorem getDownloadTrend_short_series (downloads : list Z) :
  (length downloads <= 7)%nat ->
  exists r, getDownloadTrend (Some downloads) = Some r /\
    recent r = sum_downloads downloads /\
    sixMonthsAgo r = sum_downloads downloads /\
    tr_trend r = "stable" /\ (percent r == 0)%Q.
Proof.
  intros Hlen. unfold getDownloadTrend.
  assert (Hr : recent_days downloads = downloads)
    by (unfold recent_days; replace (length downloads - 7)%nat with 0%nat by lia;
        reflexivity).
  assert (Ho : old_days downloads = downloads).
  { unfold old_days, six_month_offset.
    replace (Z.to_nat (Z.max 0 (Z.of_nat (length downloads) - 182 - 7))) with 0%nat by lia.
    apply firstn_all2; cbn; lia. }
  rewrite Hr, Ho. set (s := sum_downloads downloads).
  zcases.
  - rewrite trend_percent_same.
    eexists; split; [reflexivity|]; cbn; repeat split; try reflexivity.
  - eexists; split; [reflexivity|]; cbn; repeat split; try reflexivity.
Qed.

(** The trend of [getDownloadTrend] is one of its three literals. *)
Lemma getDownloadTrend_trend data r :
  getDownloadTrend data = Some r ->
  tr_trend r = "growing" \/ tr_trend r = "stable" \/ tr_trend r = "declining".
Proof.
  unfold getDownloadTrend. destruct data as [downloads|]; [|discriminate].
  intros E.
  repeat match type of E with
  | context [if ?c then _ else _] => destruct c
  end; injection E as <-; cbn [tr_trend]; tauto.
Qed.

Lemma analyzePopularity_trend_cases weeklyData data :
  let p := analyzePopularity weeklyData (getDownloadTrend data) in
  trend p = Some "growing" \/ trend p = Some "stable" \/ trend p = Some "declining".
Proof.
  cbn zeta. unfold analyzePopularity.
  destruct (getDownloadTrend data) as [r|] eqn:E; cbn [trend].
  - destruct (getDownloadTrend_trend data r E) as [-> | [-> | ->]]; tauto.
  - tauto.
Qed.

(** X6: whatever the fetches return, the popularity analyzer reports a trend
    of growing, stable or declining, so the trend block of the score always
    awards 10, 7 or 2 points. *)
Theorem analyzePopularity_trend_points weeklyData data :
  let p := analyzePopularity weeklyData (getDownloadTrend data) in
  (trend p = Some "growing" \/ trend p = Some "stable" \/ trend p = Some "declining") /\
  In (trend_block {| maintenance := None; popularity := Some p; size := None;
                     security := None |} 0) [10; 7; 2].
Proof.
  cbn zeta. split; [apply analyzePopularity_trend_cases|].
  unfold trend_block; cbn [popularity].
  destruct (analyzePopularity_trend_cases weeklyData data) as [-> | [-> | ->]]; cbn; tauto.
Qed.

(** ** [formatBytes] and the size analyzer *)

Lemma unit_string_not_unknown (s t : string) : (s ++ String (Ascii.ascii_of_nat 32) t) <> "unknown".
Proof.
  do 7 (destruct s as [|? s]; [discriminate|];
        cbn; intros H; injection H as _ H; revert H).
  destruct s; discriminate.
Qed.

Lemma formatBytes_unknown_iff (bytes : Z) : formatBytes bytes = "unknown" <-> bytes = 0.
Proof.
  split; [|intros ->; reflexivity].
  unfold formatBytes. destruct (Z.eqb_spec bytes 0) as [->|Hn]; [reflexivity|].
  intros H; exfalso.
  destruct (bytes <? 1024); [|destruct (bytes <? 1024 * 1024);
    [|destruct (bytes <? 1024 * 1024 * 1024)]];
  eapply unit_string_not_unknown; exact H.
Qed.

(** X7: [formatBytes] says "unknown" for 0 bytes and only then, so the size
    analyzer reports a human size of "unknown" exactly when the size it
    found is 0 (no size on the registry), the case the score gives 8
    points. *)
Theorem analyzeSize_unknown_iff_zero packageInfo :
  (forall bytes, formatBytes bytes = "unknown" <-> bytes = 0) /\
  (unpackedSizeHuman (analyzeSize packageInfo) = Some "unknown" <->
   unpackedSize (analyzeSize packageInfo) = Some 0).
Proof.
  split; [exact formatBytes_unknown_iff|].
  unfold analyzeSize. destruct packageInfo as [pi|]; [|split; reflexivity].
  cbn [unpackedSizeHuman unpackedSize].
  match goal with |- Some (formatBytes ?e) = _ <-> _ => generalize e end.
  intros n; split; intros H; injection H as H; apply formatBytes_unknown_iff in H;
  rewrite H; reflexivity.
Qed.

(** X8: [Math.round(bytes / 1024)] reaches 1024 before the MB branch takes
    over: every size from 1,048,064 to 1,048,575 bytes is printed as
    "1024 KB". *)
Theorem formatBytes_1024_KB (bytes : Z) :
  1048064 <= bytes <= 1048575 -> formatBytes bytes = "1024 KB".
Proof.
  intros H. unfold formatBytes.
  replace (bytes =? 0) with false by (symmetry; apply Z.eqb_neq; lia).
  replace (bytes <? 1024) with false by (symmetry; apply Z.ltb_ge; lia).
  replace (bytes <? 1024 * 1024) with true by (symmetry; apply Z.ltb_lt; lia).
  replace ((bytes + 512) / 1024) with 1024.
  - reflexivity.
  - apply Z.div_unique with (bytes + 512 - 1024 * 1024); lia.
Qed.

(** ** The cache *)

Section CacheLemmas.

Variable V : Type.

Lemma lookup_set_key_same key (e : CacheEntry V) (c : CacheFile V) :
  lookup key (set_key V key e c) = Some e.
Proof.
  induction c as [|[k e'] c IH]; cbn [set_key lookup].
  - rewrite String.eqb_refl; reflexivity.
  - destruct (String.eqb_spec k key) as [->|Hne].
    + cbn [lookup]; rewrite String.eqb_refl; reflexivity.
    + cbn [lookup]; apply String.eqb_neq in Hne; rewrite Hne; exact IH.
Qed.

Lemma lookup_set_key_other key k (e : CacheEntry V) (c : CacheFile V) :
  k <> key -> lookup k (set_key V key e c) = lookup k c.
Proof.
  intros Hk; induction c as [|[k' e'] c IH]; cbn [set_key lookup].
  - apply String.eqb_neq in Hk; rewrite String.eqb_sym, Hk; reflexivity.
  - destruct (String.eqb_spec k' key) as [->|Hne]; cbn [lookup].
    + apply String.eqb_neq in Hk. rewrite String.eqb_sym, Hk; reflexivity.
    + rewrite IH; reflexivity.
Qed.

Lemma lookup_remove_same key (c : CacheFile V) : lookup key (remove_key V key c) = None.
Proof.
  unfold remove_key; induction c as [|[k e] c IH]; [reflexivity|].
  cbn [filter fst]. destruct (String.eqb_spec k key) as [->|Hne].
  - cbn [negb]; exact IH.
  - apply String.eqb_neq in Hne; cbn [negb lookup]; rewrite Hne; exact IH.
Qed.

Lemma lookup_remove_other key k (c : CacheFile V) :
  k <> key -> lookup k (remove_key V key c) = lookup k c.
Proof.
  intros Hk; unfold remove_key; induction c as [|[k' e] c IH]; [reflexivity|].
  cbn [filter fst lookup]. destruct (String.eqb_spec k' key) as [->|Hne]; cbn [negb].
  - assert (E : String.eqb key k = false) by (apply String.eqb_neq; congruence).
    rewrite E; exact IH.
  - cbn [lookup]. destruct (String.eqb k' k); [reflexivity|exact IH].
Qed.

Lemma map_fst_set_key key (e : CacheEntry V) (c : CacheFile V) :
  map fst (set_key V key e c) =
  if existsb (fun k => String.eqb k key) (map fst c) then map fst c
  else app (map fst c) [key].
Proof.
  induction c as [|[k e'] c IH]; [reflexivity|].
  cbn [set_key map existsb fst].
  destruct (String.eqb k key); [reflexivity|].
  cbn [map fst orb]; rewrite IH.
  destruct (existsb _ _); reflexivity.
Qed.

Lemma NoDup_remove_key key (c : CacheFile V) :
  NoDup (map fst c) -> NoDup (map fst (remove_key V key c)).
Proof.
  unfold remove_key; induction c as [|[k e] c IH]; intros H; [constructor|].
  cbn [map fst] in H; inversion H as [|? ? Hnin Hnd]; subst.
  cbn [filter fst]. destruct (negb (String.eqb k key)); [|apply IH; exact Hnd].
  cbn [map fst]; constructor; [|apply IH; exact Hnd].
  intros Hin; apply Hnin.
  apply in_map_iff in Hin as ([k' e'] & Hk & Hin'); cbn [fst] in Hk; subst k'.
  apply filter_In in Hin' as [Hin' _].
  apply in_map_iff; exists (k, e'); split; [reflexivity|exact Hin'].
Qed.

(** ** The file keeps one entry per key *)

Lemma NoDup_set_key key (e : CacheEntry V) (c : CacheFile V) :
  NoDup (map fst c) -> NoDup (map fst (set_key V key e c)).
Proof.
  intros H; rewrite map_fst_set_key.
  destruct (existsb (fun k => String.eqb k key) (map fst c)) eqn:E; [exact H|].
  apply NoDup_app; [exact H|constructor; [intros []|constructor]|].
  intros x Hx [-> | []].
  assert (existsb (fun k => String.eqb k x) (map fst c) = true)
    by (apply existsb_exists; exists x; split; [exact Hx|apply String.eqb_refl]).
  congruence.
Qed.

End CacheLemmas.

(** X9: when the cache file is written, a value [set] under a key with a TTL
    (an hour when the TTL is not a number) is returned by [get] at any time
    up to its expiry instant inclusive ([get] expires strictly after
    [expiresAt]), and [set] leaves every other key's entry as it was. *)
Theorem cache_set_then_get {V} now now' key (value : V) ttlMs (disk : CacheFile V) :
  now' <= now + match ttlMs with Some t => t | None => DEFAULT_TTL end ->
  cache_get V Written now' key (cache_set V Written now key value ttlMs disk) =
    (Some value, cache_set V Written now key value ttlMs disk) /\
  forall k, k <> key ->
    lookup k (cache_set V Written now key value ttlMs disk) = lookup k disk.
Proof.
  intros Hle. split.
  - unfold cache_get. unfold cache_set at 1, writeCache at 1.
    rewrite lookup_set_key_same; cbn [ce_expiresAt ce_value].
    replace (now' >? now + match ttlMs with Some t => t | None => DEFAULT_TTL end)
      with false by (symmetry; rewrite Z.gtb_ltb; apply Z.ltb_ge; lia).
    reflexivity.
  - intros k Hk. unfold cache_set, writeCache. apply lookup_set_key_other; exact Hk.
Qed.

(** X10: [get] on an entry whose [expiresAt] is past returns null; when the
    file is written the entry is deleted and every other entry is kept; when
    the write fails before the file is opened the file is left as it was;
    when it fails partway through, the cut-off file reads back as empty. *)
Theorem cache_get_expired {V} write_outcome now key (disk : CacheFile V) entry :
  lookup key disk = Some entry -> ce_expiresAt V entry < now ->
  let '(r, disk') := cache_get V write_outcome now key disk in
  r = None /\
  (write_outcome = Written ->
     lookup key disk' = None /\ forall k, k <> key -> lookup k disk' = lookup k disk) /\
  (write_outcome = FailedBeforeWrite -> disk' = disk) /\
  (write_outcome = FailedWhileWriting -> disk' = []).
Proof.
  intros Hl Hexp. unfold cache_get; rewrite Hl.
  replace (now >? ce_expiresAt V entry) with true by (symmetry; rewrite Z.gtb_ltb; apply Z.ltb_lt; lia).
  unfold writeCache. split; [reflexivity|]. split; [|split]; intros ->.
  - split; [apply lookup_remove_same|intros k Hk; apply lookup_remove_other; exact Hk].
  - reflexivity.
  - reflexivity.
Qed.

(** X11: [set] and [get] keep the cache file free of duplicate keys. *)
Theorem cache_keys_stay_distinct {V} write_outcome now key (value : V) ttlMs
    (disk : CacheFile V) :
  NoDup (map fst disk) ->
  NoDup (map fst (cache_set V write_outcome now key value ttlMs disk)) /\
  NoDup (map fst (snd (cache_get V write_outcome now key disk))).
Proof.
  intros H. split.
  - unfold cache_set, writeCache; destruct write_outcome; [apply NoDup_set_key; exact H|exact H|constructor].
  - unfold cache_get. destruct (lookup key disk) as [e|]; [|exact H].
    destruct (now >? ce_expiresAt V e); [|exact H].
    unfold writeCache; destruct write_outcome; [apply NoDup_remove_key; exact H|exact H|constructor].
Qed.

(** X12: when the cache holds an unexpired entry for the key, [cachedFetch]
    returns the cached value whatever the network would answer, and the
    cache file is not touched. *)
Theorem cachedFetch_hit {V} write_outcome t_get t_set key (response : Response V)
    (disk : CacheFile V) entry :
  lookup key disk = Some entry -> t_get <= ce_expiresAt V entry ->
  cachedFetch V write_outcome t_get t_set key response disk = (Some (ce_value V entry), disk).
Proof.
  intros Hl Hle. unfold cachedFetch, cache_get; rewrite Hl.
  replace (t_get >? ce_expiresAt V entry) with false
    by (symmetry; rewrite Z.gtb_ltb; apply Z.ltb_ge; lia).
  reflexivity.
Qed.

(** X13: [cachedFetch] stores nothing when it returns null (network error,
    404, another non-2xx status, or a body that is not JSON): the file is
    then as [get] left it. *)
Theorem cachedFetch_null_stores_nothing {V} write_outcome t_get t_set key
    (response : Response V) (disk : CacheFile V) :
  fst (cachedFetch V write_outcome t_get t_set key response disk) = None ->
  snd (cachedFetch V write_outcome t_get t_set key response disk) =
  snd (cache_get V write_outcome t_get key disk).
Proof.
  unfold cachedFetch. destruct (cache_get V write_outcome t_get key disk) as [[v|] d].
  - discriminate.
  - destruct response as [|status [data|]];
    repeat match goal with |- context [if ?c then _ else _] => destruct c end;
    cbn [fst snd]; intros H; first [reflexivity | discriminate].
Qed.

(** X14: when the cache file is written, a successful fetch (2xx status, JSON body)
    after a miss returns the body, and a later [cachedFetch] of the same key
    within [CACHE_TTL] of the store returns that same body without using
    its response. *)
Theorem cachedFetch_success_then_hit {V} t_get t_set t' t_set' key status (data : V)
    (response' : Response V) (disk : CacheFile V) :
  fst (cache_get V Written t_get key disk) = None ->
  200 <= status <= 299 ->
  t' <= t_set + CACHE_TTL ->
  let '(r, disk') := cachedFetch V Written t_get t_set key (HttpResponse status (Some data)) disk in
  r = Some data /\
  cachedFetch V Written t' t_set' key response' disk' = (Some data, disk').
Proof.
  intros Hmiss Hok Ht. unfold cachedFetch at 1.
  destruct (cache_get V Written t_get key disk) as [[v|] d]; [discriminate|].
  replace (status =? 404) with false by (symmetry; apply Z.eqb_neq; lia).
  replace (negb ((200 <=? status) && (status <=? 299))) with false
    by (symmetry; apply negb_false_iff, andb_true_iff; split; apply Z.leb_le; lia).
  split; [reflexivity|].
  apply (cachedFetch_hit Written t' t_set' key response' _
           {| ce_value := data; ce_expiresAt := t_set + CACHE_TTL |}).
  - unfold cache_set, writeCache; apply lookup_set_key_same.
  - cbn [ce_expiresAt]; exact Ht.
Qed.

(** ** The JSON reporter *)

Lemma insert_by_score_perm x l : Permutation (insert_by_score x l) (x :: l).
Proof.
  induction l as [|y l IH]; cbn [insert_by_score]; [reflexivity|].
  destruct (jd_score y <=? jd_score x); [|reflexivity].
  transitivity (y :: x :: l); [constructor; exact IH|apply perm_swap].
Qed.

Lemma HdRel_insert_by_score y x l :
  score_le y x -> HdRel score_le y l -> HdRel score_le y (insert_by_score x l).
Proof.
  intros Hyx Hl. destruct l as [|z l]; cbn [insert_by_score].
  - constructor; exact Hyx.
  - destruct (jd_score z <=? jd_score x); constructor; [inversion Hl; assumption|exact Hyx].
Qed.

Lemma insert_by_score_sorted x l :
  Sorted score_le l -> Sorted score_le (insert_by_score x l).
Proof.
  induction l as [|y l IH]; intros H; cbn [insert_by_score].
  - constructor; constructor.
  - apply Sorted_inv in H as [Hl Hy].
    destruct (Z.leb_spec (jd_score y) (jd_score x)) as [Hle|Hlt].
    + constructor; [apply IH; exact Hl|apply HdRel_insert_by_score; assumption].
    + constructor; [constructor; assumption|constructor; unfold score_le; lia].
Qed.

Lemma sort_by_score_fold l acc :
  Sorted score_le acc ->
  Sorted score_le (fold_left (fun acc x => insert_by_score x acc) l acc) /\
  Permutation (fold_left (fun acc x => insert_by_score x acc) l acc) (app acc l).
Proof.
  revert acc; induction l as [|x l IH]; intros acc Hs; cbn [fold_left].
  - rewrite app_nil_r; split; [exact Hs|reflexivity].
  - destruct (IH (insert_by_score x acc) (insert_by_score_sorted x acc Hs)) as [H1 H2].
    split; [exact H1|].
    rewrite H2. rewrite (insert_by_score_perm x acc).
    apply Permutation_middle.
Qed.

Lemma sort_by_score_spec l :
  Sorted score_le (sort_by_score l) /\ Permutation (sort_by_score l) l.
Proof. apply (sort_by_score_fold l []); constructor. Qed.

Lemma Sorted_firstn {A} (R : A -> A -> Prop) n l :
  Sorted R l -> Sorted R (firstn n l).
Proof.
  revert n; induction l as [|x l IH]; intros n H; destruct n as [|n];
    cbn [firstn]; [constructor|constructor|constructor|].
  apply Sorted_inv in H as [Hl Hx]. constructor; [apply IH; exact Hl|].
  destruct n as [|n]; cbn [firstn]; [constructor|].
  destruct l as [|y l]; cbn [firstn]; [constructor|].
  inversion Hx; constructor; assumption.
Qed.

Lemma StronglySorted_app_rel {A} (R : A -> A -> Prop) l1 l2 :
  StronglySorted R (app l1 l2) -> forall a b, In a l1 -> In b l2 -> R a b.
Proof.
  induction l1 as [|x l1 IH]; intros H a b Ha Hb; [destruct Ha|].
  apply StronglySorted_inv in H as [H Hall].
  destruct Ha as [<-|Ha].
  - rewrite Forall_forall in Hall; apply Hall, in_or_app; right; exact Hb.
  - apply IH; assumption.
Qed.

Lemma output_entries_length results options :
  length (output_entries results options) =
  jo_totalDependencies (buildOutput results options).
Proof.
  unfold output_entries, buildOutput; cbn [jo_totalDependencies].
  destruct (ro_dev options); cbn [andb negb].
  - destruct (Nat.eqb_spec (length (devDependencies results)) 0) as [E|E]; cbn [negb].
    + rewrite length_map, E; lia.
    + rewrite length_app, !length_map; reflexivity.
  - rewrite length_map; lia.
Qed.

(** X15: the [dependencies] of the JSON output are in ascending score
    order; with no positive limit they are all the formatted production and
    (with [dev]) dev entries, as many as [totalDependencies]; with a limit
    [n > 0] they are the first [min n total] of that order, and no entry left
    out has a lower score than one kept. *)
Theorem buildOutput_worst_first results options :
  let out := jo_dependencies (buildOutput results options) in
  let all := output_entries results options in
  length all = jo_totalDependencies (buildOutput results options) /\
  Sorted score_le out /\
  (ro_limit options <= 0 -> Permutation out all) /\
  (0 < ro_limit options ->
     length out = Nat.min (Z.to_nat (ro_limit options)) (length all) /\
     exists dropped, Permutation (app out dropped) all /\
       forall a b, In a out -> In b dropped -> score_le a b).
Proof.
  cbn zeta. split; [apply output_entries_length|].
  destruct (sort_by_score_spec (output_entries results options)) as [Hs Hp].
  unfold buildOutput; cbn [jo_dependencies].
  set (sorted := sort_by_score (output_entries results options)) in *.
  destruct (Z.gtb_spec (ro_limit options) 0) as [Hpos|Hnp].
  - split; [apply Sorted_firstn; exact Hs|].
    split; [intros; lia|intros _].
    split; [rewrite length_firstn, (Permutation_length Hp); reflexivity|].
    exists (skipn (Z.to_nat (ro_limit options)) sorted).
    rewrite firstn_skipn; split; [exact Hp|].
    apply StronglySorted_app_rel.
    rewrite firstn_skipn.
    apply Sorted_StronglySorted; [|exact Hs].
    intros a b c Hab Hbc; unfold score_le in *; lia.
  - split; [exact Hs|]. split; [intros _; exact Hp|intros; lia].
Qed.

(** ** The summary and the exit code over the analysis of a project *)

Lemma calculateGrade_letter s : In (calculateGrade s) ["A"; "B"; "C"; "D"; "F"].
Proof. unfold calculateGrade; zcases; cbn; tauto. Qed.

Lemma analyze_entries_in getAlternative run k entries r :
  In r (analyze_entries getAlternative run k entries) ->
  exists i n v, nth_error entries i = Some (n, v) /\
    r = settled_to_result entries i (analyzePackage_settled getAlternative run k i (n, v)).
Proof.
  intros Hin. apply In_nth_error in Hin as [i Hi].
  rewrite analyze_entries_nth_error in Hi.
  destruct (nth_error entries i) as [[n v]|] eqn:E; [|discriminate].
  injection Hi as Hi. exists i, n, v; split; [exact E|symmetry; exact Hi].
Qed.

Lemma analyze_entries_grade getAlternative run k entries r :
  In r (analyze_entries getAlternative run k entries) ->
  In (grade r) ["A"; "B"; "C"; "D"; "F"].
Proof.
  intros Hin. apply analyze_entries_in in Hin as (i & n & v & _ & ->).
  unfold analyzePackage_settled.
  destruct (run k i n v) as [[pi|] outcomes|reason]; cbn [settled_to_result].
  - apply calculateGrade_letter.
  - cbn; tauto.
  - cbn; tauto.
Qed.

Lemma grades_sum_count g grade :
  In grade ["A"; "B"; "C"; "D"; "F"] ->
  grades_sum (count_grade g grade) = S (grades_sum g).
Proof.
  intros [<-|[<-|[<-|[<-|[<-|[]]]]]]; unfold grades_sum; cbn; lia.
Qed.

Lemma summary_fold l g a v :
  (forall r, In r l -> In (grade r) ["A"; "B"; "C"; "D"; "F"]) ->
  let '(g', a', v') := fold_left summary_step l (g, a, v) in
  grades_sum g' = (grades_sum g + length l)%nat /\
  ((forall r, In r l -> is_vulnerable r = false) -> v' = v).
Proof.
  revert g a v; induction l as [|r l IH]; intros g a v Hl; cbn [fold_left length].
  - split; [lia|reflexivity].
  - cbn [summary_step].
    specialize (IH (count_grade g (grade r))
                   (if is_abandoned r then S a else a)
                   (if is_vulnerable r then S v else v)
                   (fun r' H => Hl r' (or_intror H))).
    destruct (fold_left summary_step l _) as [[g' a'] v'].
    destruct IH as [IH1 IH2]. split.
    + rewrite IH1, grades_sum_count by (apply Hl; left; reflexivity). lia.
    + intros Hv. rewrite IH2 by (intros; apply Hv; right; assumption).
      rewrite (Hv r (or_introl eq_refl)); reflexivity.
Qed.

(** X16: over the results of [analyzeProject], every grade is one of A, B,
    C, D, F, so the five grade counts of the summary add up to
    [productionCount + devCount]. *)
Theorem buildSummary_grades_cover_all getAlternative run pkg includeDev options :
  let r := analyzeProject getAlternative run pkg includeDev in
  let s := buildSummary (dependencies r) (devDependencies r) options in
  grades_sum (grades s) = (productionCount s + devCount s)%nat.
Proof.
  cbn zeta. unfold buildSummary.
  set (r := analyzeProject getAlternative run pkg includeDev).
  assert (Hd : forall x, In x (dependencies r) -> In (grade x) ["A"; "B"; "C"; "D"; "F"])
    by (intros x; apply analyze_entries_grade).
  assert (Hv : forall x, In x (devDependencies r) -> In (grade x) ["A"; "B"; "C"; "D"; "F"]).
  { intros x. unfold r, analyzeProject; cbn [devDependencies].
    destruct includeDev; [apply analyze_entries_grade|intros []]. }
  destruct (ro_dev options).
  - assert (Hall : forall x, In x (app (dependencies r) (devDependencies r)) ->
                   In (grade x) ["A"; "B"; "C"; "D"; "F"])
      by (intros x Hx; apply in_app_or in Hx as [Hx|Hx]; auto).
    pose proof (summary_fold _ {| gA := 0; gB := 0; gC := 0; gD := 0; gF := 0 |} 0 0 Hall) as H.
    destruct (fold_left summary_step _ _) as [[g a] v]. destruct H as [H _].
    cbn [grades productionCount devCount]. rewrite H, length_app.
    unfold grades_sum; cbn [gA gB gC gD gF]; lia.
  - pose proof (summary_fold _ {| gA := 0; gB := 0; gC := 0; gD := 0; gF := 0 |} 0 0 Hd) as H.
    destruct (fold_left summary_step _ _) as [[g a] v]. destruct H as [H _].
    cbn [grades productionCount devCount]. rewrite H.
    unfold grades_sum; cbn [gA gB gC gD gF]; lia.
Qed.

(** Under the analyzers as coded, no result of a project reports a
    vulnerability. *)
Lemma analyze_entries_not_vulnerable getAlternative run k entries r :
  analyzers_as_coded run ->
  In r (analyze_entries getAlternative run k entries) -> is_vulnerable r = false.
Proof.
  intros Hrun Hin. apply analyze_entries_in in Hin as (i & n & v & _ & ->).
  unfold analyzePackage_settled.
  destruct (run k i n v) as [[pi|] outcomes|reason] eqn:E; cbn [settled_to_result].
  - destruct (Hrun k i n v pi outcomes E) as [_ Hs].
    unfold analyzePackage, is_vulnerable; cbn [dr_security].
    destruct (security_out outcomes) as [sec|reason]; cbn [value_or].
    + cbn in Hs; subst sec; reflexivity.
    + reflexivity.
  - reflexivity.
  - reflexivity.
Qed.

(** X17: while the security analyzer is the stub that reports no
    vulnerabilities, the summary of a project never counts a vulnerable
    dependency: a found package gets the stub's 0 or the clean default, a
    missing one the clean default, a failed one no security record. *)
Theorem buildSummary_no_vulnerable getAlternative run pkg includeDev options :
  analyzers_as_coded run ->
  let r := analyzeProject getAlternative run pkg includeDev in
  vulnerableCount (buildSummary (dependencies r) (devDependencies r) options) = 0%nat.
Proof.
  intros Hrun. cbn zeta. unfold buildSummary.
  set (r := analyzeProject getAlternative run pkg includeDev).
  set (all := if ro_dev options then app (dependencies r) (devDependencies r)
              else dependencies r).
  assert (Hg : forall x, In x all -> In (grade x) ["A"; "B"; "C"; "D"; "F"]).
  { intros x Hx. unfold all in Hx. unfold r, analyzeProject in Hx;
    cbn [dependencies devDependencies] in Hx.
    destruct (ro_dev options); [apply in_app_or in Hx as [Hx|Hx]|];
      try (eapply analyze_entries_grade; exact Hx).
    destruct includeDev; [eapply analyze_entries_grade; exact Hx|destruct Hx]. }
  assert (Hn : forall x, In x all -> is_vulnerable x = false).
  { intros x Hx. unfold all in Hx. unfold r, analyzeProject in Hx;
    cbn [dependencies devDependencies] in Hx.
    destruct (ro_dev options); [apply in_app_or in Hx as [Hx|Hx]|];
      try (eapply analyze_entries_not_vulnerable; eassumption).
    destruct includeDev; [eapply analyze_entries_not_vulnerable; eassumption|destruct Hx]. }
  pose proof (summary_fold all {| gA := 0; gB := 0; gC := 0; gD := 0; gF := 0 |} 0 0 Hg) as H.
  destruct (fold_left summary_step all _) as [[g a] v]. destruct H as [_ H].
  cbn [vulnerableCount]. exact (H Hn).
Qed.

Lemma found_score_at_least_27 getAlternative n v pi outcomes :
  popularity_from_analyzer (popularity_out outcomes) ->
  security_from_analyzer n v (security_out outcomes) ->
  27 <= score (analyzePackage getAlternative n v (Some pi) outcomes).
Proof.
  intros Hp Hs. unfold analyzePackage; cbn [score].
  set (a := {| maintenance := _; popularity := _; size := _; security := _ |}).
  rewrite calculateScore_sum.
  destruct (maintenance_block_add a 0) as [_ Hm].
  destruct (popularity_block_add a 0) as [_ Hpp].
  destruct (size_block_add a 0) as [_ Hsz].
  assert (Hsec : security_block a 0 = 25).
  { unfold a, security_block; cbn [security].
    destruct (security_out outcomes) as [sec|reason]; cbn [value_or].
    - cbn in Hs; subst sec; reflexivity.
    - reflexivity. }
  assert (Htr : 2 <= trend_block a 0).
  { unfold a, trend_block; cbn [popularity].
    destruct (popularity_out outcomes) as [p|reason]; cbn [value_or].
    - destruct Hp as (weeklyData & data & ->).
      destruct (analyzePopularity_trend_cases weeklyData data) as [-> | [-> | ->]];
        cbn; lia.
    - cbn; lia. }
  lia.
Qed.

Lemma calculateGrade_not_F s : 20 <= s -> calculateGrade s <> "F".
Proof. intros H. unfold calculateGrade; zcases; try discriminate; lia. Qed.

Lemma found_grade_not_F getAlternative n v pi outcomes :
  popularity_from_analyzer (popularity_out outcomes) ->
  security_from_analyzer n v (security_out outcomes) ->
  grade (analyzePackage getAlternative n v (Some pi) outcomes) <> "F".
Proof.
  intros Hp Hs.
  pose proof (found_score_at_least_27 getAlternative n v pi outcomes Hp Hs) as H.
  unfold analyzePackage at 1; cbn [grade].
  apply calculateGrade_not_F.
  unfold analyzePackage in H; cbn [score] in H. lia.
Qed.

(** X18: once a package is found on the registry, its result scores at
    least 27 and is never graded F under the analyzers as coded: the
    security stub (or its clean default) gives 25 points and every trend the
    popularity analyzer can report gives at least 2. *)
Theorem analyzePackage_found_never_F getAlternative n v pi outcomes :
  popularity_from_analyzer (popularity_out outcomes) ->
  security_from_analyzer n v (security_out outcomes) ->
  27 <= score (analyzePackage getAlternative n v (Some pi) outcomes) /\
  grade (analyzePackage getAlternative n v (Some pi) outcomes) <> "F".
Proof.
  intros Hp Hs.
  pose proof (found_score_at_least_27 getAlternative n v pi outcomes Hp Hs) as H.
  split; [exact H|].
  exact (found_grade_not_F getAlternative n v pi outcomes Hp Hs).
Qed.

Lemma analyze_entries_has_F getAlternative run k entries :
  analyzers_as_coded run ->
  existsb (fun d => String.eqb (grade d) "F") (analyze_entries getAlternative run k entries)
    = true <-> lost_dependency run k entries.
Proof.
  intros Hrun. rewrite existsb_exists. split.
  - intros (r & Hin & HF). apply String.eqb_eq in HF.
    apply analyze_entries_in in Hin as (i & n & v & Hi & ->).
    exists i, n, v; split; [exact Hi|].
    unfold analyzePackage_settled in HF.
    destruct (run k i n v) as [[pi|] outcomes|reason] eqn:E.
    + exfalso. destruct (Hrun k i n v pi outcomes E) as [Hp Hs].
      exact (found_grade_not_F getAlternative n v pi outcomes Hp Hs HF).
    + left; exists outcomes; reflexivity.
    + right; exists reason; reflexivity.
  - intros (i & n & v & Hi & Hlost).
    assert (Hr : nth_error (analyze_entries getAlternative run k entries) i =
      Some (settled_to_result entries i (analyzePackage_settled getAlternative run k i (n, v))))
      by (rewrite analyze_entries_nth_error, Hi; reflexivity).
    eexists; split; [eapply nth_error_In; exact Hr|].
    unfold analyzePackage_settled.
    destruct Hlost as [(outcomes & ->)|(reason & ->)]; reflexivity.
Qed.

(** X19: under the analyzers as coded, the CLI exits with 0 or 1, and with
    1 exactly when no dependency is in scope ([dependencies] empty, and
    [devDependencies] empty or [--dev] not given) or when some dependency in
    scope (production, or dev with [--dev]) was not found on the registry or
    had its analysis throw; a found package never makes it fail. *)
Theorem cli_exit_code_iff getAlternative run pkg dev :
  analyzers_as_coded run ->
  let deps := match pkg_dependencies pkg with Some d => d | None => [] end in
  let devDeps := match pkg_devDependencies pkg with Some d => d | None => [] end in
  (cli_exit_code pkg dev (analyzeProject getAlternative run pkg) = 0 \/
   cli_exit_code pkg dev (analyzeProject getAlternative run pkg) = 1) /\
  (cli_exit_code pkg dev (analyzeProject getAlternative run pkg) = 1 <->
   (deps = [] /\ (dev = false \/ devDeps = [])) \/
   lost_dependency run Prod deps \/
   (dev = true /\ lost_dependency run Dev devDeps)).
Proof.
  intros Hrun. cbn zeta. unfold cli_exit_code.
  set (deps := match pkg_dependencies pkg with Some d => d | None => [] end).
  set (devDeps := match pkg_devDependencies pkg with Some d => d | None => [] end).
  destruct (Nat.eqb (length deps) 0 && (negb dev || Nat.eqb (length devDeps) 0)) eqn:Hpre.
  - split; [right; reflexivity|split; [intros _|reflexivity]].
    left. apply andb_true_iff in Hpre as [H1 H2].
    apply Nat.eqb_eq, length_zero_iff_nil in H1. split; [exact H1|].
    apply orb_true_iff in H2 as [H2|H2].
    + left; apply negb_true_iff; exact H2.
    + right; apply Nat.eqb_eq, length_zero_iff_nil in H2; exact H2.
  - assert (Hnot : ~ (deps = [] /\ (dev = false \/ devDeps = []))).
    { intros [Hd Hdev]. rewrite Hd in Hpre; cbn in Hpre.
      destruct Hdev as [->|Hdd]; [discriminate|].
      rewrite Hdd, orb_true_r in Hpre; discriminate. }
    pose proof (analyze_entries_has_F getAlternative run Prod deps Hrun) as Hprod.
    pose proof (analyze_entries_has_F getAlternative run Dev devDeps Hrun) as Hdevf.
    unfold analyzeProject; cbn [dependencies devDependencies].
    destruct dev; cbn [negb orb andb] in *; fold deps devDeps;
      rewrite existsb_app; cbn [existsb]; try rewrite orb_false_r;
      destruct (existsb (fun d => String.eqb (grade d) "F")
                  (analyze_entries getAlternative run Prod deps)) eqn:E1; cbn [orb].
    + split; [right; reflexivity|].
      split; [intros _; right; left; apply Hprod; first [reflexivity | exact E1]|reflexivity].
    + destruct (existsb (fun d => String.eqb (grade d) "F")
                  (analyze_entries getAlternative run Dev devDeps)) eqn:E2.
      * split; [right; reflexivity|].
        split; [intros _; right; right; split; [reflexivity|apply Hdevf; first [reflexivity | exact E2]]|reflexivity].
      * split; [left; reflexivity|split; [discriminate|]].
        intros [H|[H|[_ H]]];
          [contradiction|apply Hprod in H; congruence|apply Hdevf in H; congruence].
    + split; [right; reflexivity|].
      split; [intros _; right; left; apply Hprod; first [reflexivity | exact E1]|reflexivity].
    + split; [left; reflexivity|split; [discriminate|]].
      intros [H|[H|[H _]]]; [contradiction|apply Hprod in H; congruence|discriminate].
Qed.

(** X20: a dependency whose analysis throws keeps its slot in
    [dependencies]: its result carries its name and version from the
    manifest, score 0, grade F and the error's message (["Analysis failed"]
    when the rejection reason is falsy), and no signal record. *)
Theorem analyzeProject_thrown_dependency getAlternative run pkg includeDev i n v reason :
  nth_error (match pkg_dependencies pkg with Some d => d | None => [] end) i = Some (n, v) ->
  run Prod i n v = Threw reason ->
  exists r,
    nth_error (dependencies (analyzeProject getAlternative run pkg includeDev)) i = Some r /\
    name r = n /\ version r = v /\ score r = 0 /\ grade r = "F" /\
    error r = match reason with Some message => message | None => Some "Analysis failed" end /\
    dr_maintenance r = None /\ dr_popularity r = None /\ dr_size r = None /\
    dr_security r = None.
Proof.
  intros Hi Hrun. unfold analyzeProject; cbn [dependencies].
  rewrite analyze_entries_nth_error, Hi. cbn [option_map].
  eexists; split; [reflexivity|].
  unfold analyzePackage_settled; rewrite Hrun; cbn [settled_to_result].
  rewrite (nth_error_nth _ i ("", "") Hi). cbn.
  repeat split; reflexivity.
Qed.

(** ** Sample runs of the properties above *)

Lemma run_coded_as_coded : analyzers_as_coded run_coded.
Proof.
  intros k i n v pi outcomes E. unfold run_coded in E.
  destruct (String.eqb n "left-pad"); [discriminate|].
  destruct (String.eqb n "broken"); [discriminate|].
  injection E as _ <-. split.
  - exists (Some (Some 5000)), (Some [100; 120; 90]); reflexivity.
  - reflexivity.
Qed.

Lemma analyzeMaintenance_points_decrease_witness :
  0 <= 400 * ms_per_day /\
  maintenance_block
    {| maintenance := Some (value_or (analyzeMaintenance sample_parseDate sample_isoDay
                                        (400 * ms_per_day) (Some sample_metadata))
                                     maintenance_default);
       popularity := None; size := None; security := None |} 0
  <= maintenance_block
    {| maintenance := Some (value_or (analyzeMaintenance sample_parseDate sample_isoDay
                                        0 (Some sample_metadata))
                                     maintenance_default);
       popularity := None; size := None; security := None |} 0.
Proof.
  split; [unfold ms_per_day; lia|].
  apply analyzeMaintenance_points_decrease. unfold ms_per_day; lia.
Defined.

Lemma latest_of_time_is_latest_witness :
  exists t, latest_of_time sample_parseDate sample_time = Some t /\
    (forall k v d, In (k, v) sample_time -> k <> "created" ->
       sample_parseDate v = Some d -> d <= t) /\
    (((forall k v, In (k, v) sample_time -> k = "created") /\ t = 0) \/
     exists k v, In (k, v) sample_time /\ k <> "created" /\ sample_parseDate v = Some t).
Proof.
  apply latest_of_time_is_latest.
  intros k v Hin _. cbn in Hin.
  destruct Hin as [E|[E|[E|[E|[]]]]]; injection E as <- <-; discriminate.
Defined.

Lemma analyzeMaintenance_first_invalid_date_witness :
  analyzeMaintenance sample_parseDate sample_isoDay 0 (Some sample_bad_metadata) =
  Rejected (Some (Some "Invalid time value")).
Proof.
  apply (analyzeMaintenance_first_invalid_date sample_parseDate sample_isoDay 0
           sample_bad_metadata [("created", "x")] "1.0.0" "not a date" [("1.1.0", "xxxxx")]).
  - reflexivity.
  - intros k' v' [E|[]]; injection E as <- _; reflexivity.
  - discriminate.
  - reflexivity.
  - intros tag E; injection E as <-; reflexivity.
  - reflexivity.
Defined.

Lemma getDownloadTrend_short_series_witness :
  (length [120; 80; 95] <= 7)%nat /\
  exists r, getDownloadTrend (Some [120; 80; 95]) = Some r /\
    recent r = sum_downloads [120; 80; 95] /\
    sixMonthsAgo r = sum_downloads [120; 80; 95] /\
    tr_trend r = "stable" /\ (percent r == 0)%Q.
Proof.
  split; [cbn; lia|]. apply getDownloadTrend_short_series. cbn; lia.
Defined.

Lemma formatBytes_1024_KB_witness :
  1048064 <= 1048300 <= 1048575 /\ formatBytes 1048300 = "1024 KB".
Proof. split; [lia|apply formatBytes_1024_KB; lia]. Defined.

Lemma cache_set_then_get_witness :
  1800000 <= 1000 + DEFAULT_TTL /\
  cache_get nat Written 1800000 "pkg:express" (cache_set nat Written 1000 "pkg:express" 4%nat None []) =
    (Some 4%nat, cache_set nat Written 1000 "pkg:express" 4%nat None []) /\
  (forall k, k <> "pkg:express" ->
     lookup k (cache_set nat Written 1000 "pkg:express" 4%nat None []) = lookup k []).
Proof.
  split; [unfold DEFAULT_TTL; lia|].
  apply cache_set_then_get. unfold DEFAULT_TTL; lia.
Defined.

Lemma cache_get_expired_witness :
  let '(r, disk') := cache_get nat FailedWhileWriting 6000 "pkg:express" sample_cache in
  r = None /\
  (FailedWhileWriting = Written ->
     lookup "pkg:express" disk' = None /\
     forall k, k <> "pkg:express" -> lookup k disk' = lookup k sample_cache) /\
  (FailedWhileWriting = FailedBeforeWrite -> disk' = sample_cache) /\
  (FailedWhileWriting = FailedWhileWriting -> disk' = []).
Proof.
  apply (cache_get_expired FailedWhileWriting 6000 "pkg:express" sample_cache
           {| ce_value := 1%nat; ce_expiresAt := 5000 |}).
  - reflexivity.
  - cbn; lia.
Defined.

Lemma cache_keys_stay_distinct_witness :
  NoDup (map fst (cache_set nat Written 0 "dl-week:express" 2%nat None sample_cache)) /\
  NoDup (map fst (snd (cache_get nat Written 0 "dl-week:express" sample_cache))).
Proof.
  apply cache_keys_stay_distinct. cbn; constructor; [intros []|constructor].
Defined.

Lemma cachedFetch_hit_witness :
  cachedFetch nat Written 3000 3000 "pkg:express" NetworkError sample_cache =
  (Some 1%nat, sample_cache).
Proof.
  apply (cachedFetch_hit Written 3000 3000 "pkg:express" NetworkError sample_cache
           {| ce_value := 1%nat; ce_expiresAt := 5000 |}).
  - reflexivity.
  - cbn; lia.
Defined.

Lemma cachedFetch_null_stores_nothing_witness :
  snd (cachedFetch nat Written 6000 6000 "pkg:express" (HttpResponse 404 None) sample_cache) =
  snd (cache_get nat Written 6000 "pkg:express" sample_cache).
Proof. apply cachedFetch_null_stores_nothing. reflexivity. Defined.

Lemma cachedFetch_success_then_hit_witness :
  let '(r, disk') :=
    cachedFetch nat Written 0 10 "pkg:express" (HttpResponse 200 (Some 7%nat)) [] in
  r = Some 7%nat /\
  cachedFetch nat Written 100000 100000 "pkg:express" NetworkError disk' = (Some 7%nat, disk').
Proof.
  apply cachedFetch_success_then_hit.
  - reflexivity.
  - lia.
  - unfold CACHE_TTL, DEFAULT_TTL; lia.
Defined.

Lemma buildSummary_no_vulnerable_witness :
  vulnerableCount
    (buildSummary (dependencies (analyzeProject no_alternative run_coded manifest_lost true))
       (devDependencies (analyzeProject no_alternative run_coded manifest_lost true))
       {| ro_dev := true; ro_fix := false; ro_limit := 0; ro_quiet := false |}) = 0%nat.
Proof. apply buildSummary_no_vulnerable. exact run_coded_as_coded. Defined.

Lemma analyzePackage_found_never_F_witness :
  27 <= score (analyzePackage no_alternative "express" "^4.18.0" (Some found_info)
                 (coded_outcomes "express" "^4.18.0")) /\
  grade (analyzePackage no_alternative "express" "^4.18.0" (Some found_info)
           (coded_outcomes "express" "^4.18.0")) <> "F".
Proof.
  apply analyzePackage_found_never_F.
  - exists (Some (Some 5000)), (Some [100; 120; 90]); reflexivity.
  - reflexivity.
Defined.

Lemma cli_exit_code_iff_witness :
  cli_exit_code manifest_lost true (analyzeProject no_alternative run_coded manifest_lost) = 1.
Proof.
  apply (cli_exit_code_iff no_alternative run_coded manifest_lost true run_coded_as_coded).
  right; left. exists 1%nat, "left-pad", "^1.3.0".
  split; [reflexivity|left; eexists; reflexivity].
Defined.

Lemma analyzeProject_thrown_dependency_witness :
  exists r,
    nth_error (dependencies (analyzeProject no_alternative run_coded manifest_broken false)) 1
      = Some r /\
    name r = "broken" /\ version r = "^0.1.0" /\ score r = 0 /\ grade r = "F" /\
    error r = Some "boom" /\
    dr_maintenance r = None /\ dr_popularity r = None /\ dr_size r = None /\
    dr_security r = None.
Proof.
  apply (analyzeProject_thrown_dependency no_alternative run_coded manifest_broken false
           1 "broken" "^0.1.0" (Some (Some "boom"))); reflexivity.
Defined.
